(** * Emergency-request workflow (Backend/app/services/third_workflow.py)

    A shallow embedding of the five-stage task-generation pipeline
    (fetch_disaster_type, fetch_nearby_resources, generate_emergency_task,
    save_task_to_db, save_user_request) and the properties its
    specification states about it.

    Modelling conventions.
    - Python [str] values are [string]s (the UTF-8 text of the str).
      Substring search, [startswith] and [replace] are defined on them.
    - Python [float] is IEEE binary64, given by the Standard Library's
      [spec_float] operations at precision 53 and exponent bound 1024.
    - [str.lower], [str.strip], [float] on a str and [** 2] belong to the
      Python library (Unicode tables, decimal conversion, the platform's
      [pow]): the stages are defined over any implementation of them, the
      class [Builtins], like [json.loads].  Versions for ASCII text stand in
      for them where a stage is run on a concrete request.
    - Document values (JSON-like) are [pyval]; a dict is a [gmap string pyval].
    - The document store, the language model and [uuid.uuid4] are the
      environment: a stage is a program [prog] that calls them, and [exec]
      runs a program against any environment, recording the calls made.
    - Exceptions are values [exn]; [try ... except Exception] is
      [try_except].  Only exceptions derived from [Exception] are modelled. *)

From Stdlib Require Import ZArith Ascii Bool Lia SpecFloat.
From Stdlib Require Import Sorting.Sorted.
From stdpp Require Import gmap strings list fin_maps.

Set Warnings "-register-all".

Local Open Scope Z_scope.

(** ** Python string methods *)

Module Str.

Definition code (c : ascii) : N := N_of_ascii c.

(** *** ASCII versions of [lower] and [strip]

    They agree with [str.lower] and [str.strip] on ASCII text. *)

(** The ASCII characters removed by [str.strip()]. *)
Definition is_space (c : ascii) : bool :=
  let n := code c in
  ((n =? 32) || ((9 <=? n) && (n <=? 13)) || ((28 <=? n) && (n <=? 31)))%N.

Definition lower_char (c : ascii) : ascii :=
  let n := code c in
  if ((65 <=? n) && (n <=? 90))%N then ascii_of_N (n + 32) else c.

(** [s.lower()] for ASCII [s] *)
Fixpoint ascii_lower (s : string) : string :=
  match s with
  | EmptyString => EmptyString
  | String c s' => String (lower_char c) (ascii_lower s')
  end.

Fixpoint lstrip (s : string) : string :=
  match s with
  | EmptyString => EmptyString
  | String c s' => if is_space c then lstrip s' else s
  end.

Fixpoint rstrip (s : string) : string :=
  match s with
  | EmptyString => EmptyString
  | String c s' =>
      match rstrip s' with
      | EmptyString => if is_space c then EmptyString else String c EmptyString
      | r => String c r
      end
  end.

(** [s.strip()] for ASCII [s] *)
Definition ascii_strip (s : string) : string := rstrip (lstrip s).

(** *** Methods defined on every text *)

(** [s.startswith(p)] *)
Definition startswith (s p : string) : bool := String.prefix p s.

(** [needle in hay] *)
Fixpoint contains (needle hay : string) : bool :=
  String.prefix needle hay
  || match hay with
     | EmptyString => false
     | String _ hay' => contains needle hay'
     end.

(** [s.replace(old, new)] for a non-empty [old]: occurrences are replaced
    from left to right without overlap; [skip] counts the characters of a
    matched occurrence still to be dropped. *)
Fixpoint replace_from (old new s : string) (skip : nat) : string :=
  match s with
  | EmptyString => EmptyString
  | String c s' =>
      match skip with
      | S k => replace_from old new s' k
      | O =>
          if String.prefix old s
          then new +:+ replace_from old new s' (Nat.pred (String.length old))
          else String c (replace_from old new s' 0)
      end
  end.

Definition replace (s old new : string) : string := replace_from old new s 0.

(** [any(keyword in text for keyword in keywords)] *)
Definition any_in (keywords : list string) (text : string) : bool :=
  existsb (fun keyword => contains keyword text) keywords.

Definition is_empty (s : string) : bool :=
  match s with EmptyString => true | _ => false end.

End Str.

(** ** Python floats: IEEE binary64 *)

Module Float64.

Definition prec : Z := 53.
Definition emax : Z := 1024.

Definition inf : spec_float := S754_infinity false.
Definition nan : spec_float := S754_nan.

Definition is_nan (x : spec_float) : bool :=
  match x with S754_nan => true | _ => false end.

Definition sub := SFsub prec emax.
Definition add := SFadd prec emax.
Definition mul := SFmul prec emax.
Definition ltb := SFltb.
Definition leb := SFleb.

(** The correctly rounded value of the integer [m * 10 ^ e] when [0 <= e],
    and of the quotient [m / 10 ^ (- e)] otherwise; it overflows to an
    infinity, as the decimal conversion of [float(str)] does. *)
Definition of_decimal (neg : bool) (m : Z) (e : Z) : spec_float :=
  match m with
  | Zpos p =>
      if 0 <=? e
      then binary_normalize prec emax (if neg then - (m * 10 ^ e) else m * 10 ^ e) 0 neg
      else SFdiv prec emax (S754_finite neg p 0)
                 (S754_finite false (Z.to_pos (10 ^ (- e))) 0)
  | _ => S754_zero neg
  end.

Definition of_Z (z : Z) : spec_float := binary_normalize prec emax z 0 false.

(** *** [float(str)] for ASCII text: parsing a decimal literal *)

(** The blanks [float] skips around the literal: space, tab, line feed,
    vertical tab, form feed, carriage return. *)
Definition is_blank (c : ascii) : bool :=
  let n := N_of_ascii c in
  ((n =? 32) || ((9 <=? n) && (n <=? 13)))%N.

Fixpoint skip_blanks (s : string) : string :=
  match s with
  | EmptyString => EmptyString
  | String c s' => if is_blank c then skip_blanks s' else s
  end.

Fixpoint drop_trailing_blanks (s : string) : string :=
  match s with
  | EmptyString => EmptyString
  | String c s' =>
      match drop_trailing_blanks s' with
      | EmptyString => if is_blank c then EmptyString else String c EmptyString
      | r => String c r
      end
  end.

Definition digit (c : ascii) : option Z :=
  let n := N_of_ascii c in
  if ((48 <=? n) && (n <=? 57))%N then Some (Z.of_N n - 48) else None.

Definition is_digit (c : ascii) : bool :=
  match digit c with Some _ => true | None => false end.

(** Underscores may only stand between two digits; they are dropped. *)
Fixpoint drop_underscores (prev : option ascii) (s : string) : option string :=
  match s with
  | EmptyString =>
      match prev with
      | Some "_"%char => None
      | _ => Some EmptyString
      end
  | String c s' =>
      if Ascii.eqb c "_"
      then match prev with
           | Some p => if is_digit p then drop_underscores (Some c) s' else None
           | None => None
           end
      else match prev with
           | Some "_"%char =>
               if is_digit c
               then String c <$> drop_underscores (Some c) s'
               else None
           | _ => String c <$> drop_underscores (Some c) s'
           end
  end.

(** Reads a maximal run of digits: the number read so far, how many digits
    were read, and the rest of the text. *)
Fixpoint digits (acc : Z) (count : Z) (s : string) : Z * Z * string :=
  match s with
  | String c s' =>
      match digit c with
      | Some d => digits (10 * acc + d) (count + 1) s'
      | None => (acc, count, s)
      end
  | EmptyString => (acc, count, s)
  end.

Definition sign (s : string) : bool * string :=
  match s with
  | String "-" s' => (true, s')
  | String "+" s' => (false, s')
  | _ => (false, s)
  end.

(** An exponent part [e[+-]digits]; a malformed one is not consumed. *)
Definition exponent (s : string) : Z * string :=
  match s with
  | String c s' =>
      if Ascii.eqb c "e" || Ascii.eqb c "E"
      then let '(neg, s'') := sign s' in
           let '(e, n, rest) := digits 0 0 s'' in
           if n =? 0 then (0, s) else ((if neg then - e else e), rest)
      else (0, s)
  | EmptyString => (0, s)
  end.

Definition parse_number (neg : bool) (s : string) : option spec_float :=
  let '(ip, n1, r1) := digits 0 0 s in
  let '(m, n2, r2) :=
    match r1 with
    | String "." t => let '(m, n, r) := digits ip 0 t in (m, n, r)
    | _ => (ip, 0, r1)
    end in
  if (n1 + n2 =? 0) then None
  else
    let '(e, r3) := exponent r2 in
    if Str.is_empty r3 then Some (of_decimal neg m (e - n2)) else None.

Definition parse_body (s : string) : option spec_float :=
  let '(neg, r) := sign s in
  let rl := Str.ascii_lower r in
  if String.eqb rl "inf" || String.eqb rl "infinity"
  then Some (S754_infinity neg)
  else if String.eqb rl "nan" then Some S754_nan
  else parse_number neg r.

(** [float(s)] for an ASCII string [s]; [None] where Python raises
    ValueError. *)
Definition of_ascii_string (s : string) : option spec_float :=
  match drop_underscores None (drop_trailing_blanks (skip_blanks s)) with
  | Some t => parse_body t
  | None => None
  end.

End Float64.

(** ** Values, exceptions and results *)

(** JSON-like Python values, as they occur in documents and model answers. *)
Inductive pyval : Type :=
| PNone
| PBool (b : bool)
| PInt (z : Z)
| PFloat (f : spec_float)
| PStr (s : string)
| PList (l : list pyval)
| PDict (d : gmap string pyval).

(** A document (a Python dict with string keys). *)
Abbreviation doc := (gmap string pyval).

(** A raised exception: the name of its class and [str(e)]. *)
Inductive exn : Type := Exn (kind : string) (msg : string).

Definition exn_str (e : exn) : string := let 'Exn _ msg := e in msg.

(** The outcome of evaluating an expression: a value or a raised exception. *)
Inductive result (A : Type) : Type :=
| Ok (a : A)
| Err (e : exn).
Arguments Ok {A} a.
Arguments Err {A} e.

#[global] Instance result_bind : MBind result := λ A B f r,
  match r with
  | Ok a => f a
  | Err e => Err e
  end.

#[global] Instance result_fmap : FMap result := λ A B f r,
  match r with
  | Ok a => Ok (f a)
  | Err e => Err e
  end.

(** ** Python's built-in functions

    The library functions the stages call on strings and floats.  They are
    not part of the program: every definition and theorem below holds for
    any implementation of them. *)
Class Builtins : Type := {
  (** [s.lower()] *)
  str_lower : string → string;
  (** [s.strip()] *)
  str_strip : string → string;
  (** [float(s)] for a str [s]: the float, or the exception raised *)
  float_of_str : string → result spec_float;
  (** [x ** 2] for a float [x]: the float, or the exception raised *)
  float_pow2 : spec_float → result spec_float
}.

Definition type_name (v : pyval) : string :=
  match v with
  | PNone => "NoneType"
  | PBool _ => "bool"
  | PInt _ => "int"
  | PFloat _ => "float"
  | PStr _ => "str"
  | PList _ => "list"
  | PDict _ => "dict"
  end.

Definition attribute_error (v : pyval) (attr : string) : exn :=
  Exn "AttributeError"
      ("'" +:+ type_name v +:+ "' object has no attribute '" +:+ attr +:+ "'").

(** Truth value of [v] in a condition. *)
Definition truthy (v : pyval) : bool :=
  match v with
  | PNone => false
  | PBool b => b
  | PInt z => negb (z =? 0)
  | PFloat (S754_zero _) => false
  | PFloat _ => true
  | PStr s => negb (Str.is_empty s)
  | PList l => match l with [] => false | _ => true end
  | PDict d => match map_to_list d with [] => false | _ => true end
  end.

(** [d.get(key)] on a dict, [None] when the key is absent. *)
Definition dict_get (d : doc) (key : string) : pyval :=
  default PNone (d !! key).

(** [d.get(key, dflt)] *)
Definition dict_get_default (d : doc) (key : string) (dflt : pyval) : pyval :=
  default dflt (d !! key).

(** [d[key]] *)
Definition dict_subscript (d : doc) (key : string) : result pyval :=
  match d !! key with
  | Some v => Ok v
  | None => Err (Exn "KeyError" ("'" +:+ key +:+ "'"))
  end.

(** [v.get(key, dflt)] on an arbitrary value: only a dict has [get]. *)
Definition py_get_default (v : pyval) (key : string) (dflt : pyval) : result pyval :=
  match v with
  | PDict d => Ok (dict_get_default d key dflt)
  | _ => Err (attribute_error v "get")
  end.

(** [v.strip()] and [v.lower()]: only a str has them. *)
Definition py_strip {lib : Builtins} (v : pyval) : result string :=
  match v with
  | PStr s => Ok (str_strip s)
  | _ => Err (attribute_error v "strip")
  end.

Definition py_lower {lib : Builtins} (v : pyval) : result string :=
  match v with
  | PStr s => Ok (str_lower s)
  | _ => Err (attribute_error v "lower")
  end.

(** [float(v)] *)
Definition py_float {lib : Builtins} (v : pyval) : result spec_float :=
  match v with
  | PFloat f => Ok f
  | PBool b => Ok (Float64.of_Z (if b then 1 else 0))
  | PInt z =>
      match Float64.of_Z z with
      | S754_infinity _ => Err (Exn "OverflowError" "int too large to convert to float")
      | f => Ok f
      end
  | PStr s => float_of_str s
  | _ => Err (Exn "TypeError"
                ("float() argument must be a string or a real number, not '"
                 +:+ type_name v +:+ "'"))
  end.

(** The correctly rounded square: a finite square out of range raises
    OverflowError; an underflow is silently zero.  [x ** 2] is the
    platform's [pow], which may differ from it in the last bit; the two
    agree wherever the square is itself a float or is out of range. *)
Definition rounded_pow2 (x : spec_float) : result spec_float :=
  match x with
  | S754_nan => Ok S754_nan
  | S754_infinity _ => Ok (S754_infinity false)
  | S754_zero _ => Ok (S754_zero false)
  | S754_finite _ _ _ =>
      match Float64.mul x x with
      | S754_infinity _ => Err (Exn "OverflowError" "(34, 'Numerical result out of range')")
      | r => Ok r
      end
  end.

(** [math.sqrt(x)] *)
Definition math_sqrt (x : spec_float) : result spec_float :=
  match x with
  | S754_finite true _ _ | S754_infinity true => Err (Exn "ValueError" "math domain error")
  | _ => Ok (SFsqrt Float64.prec Float64.emax x)
  end.

(** ** The environment and programs that call it *)

(** The values interpolated into the model prompt.  The prompt is a fixed
    template around them, so the model's answer can depend on the request
    only through these. *)
Record prompt : Type := Prompt {
  prompt_emergency_type : pyval;
  prompt_help_needed : string;
  prompt_urgency : string;
  prompt_latitude : string;
  prompt_longitude : string;
  prompt_resource_info : string
}.

(** Calls to the collaborators: the document store ([appwrite_service]),
    the language model ([gemini]) and [uuid.uuid4].  [DeleteDocument] is
    [databases.delete_document] on the tasks collection. *)
Inductive op : Type :=
| GetDisasterDocument (disaster_id : string)
| ListResourcesForDisaster (disaster_id : string)
| GeminiInvoke (p : prompt)
| Uuid4
| ListTasksByUserAndDisaster (user_id disaster_id : string)
| DeleteDocument (document_id : pyval)
| SaveTaskDocument (task : doc)
| DeleteUserRequestDocument (user_id : string)
| SaveUserRequestDocument (user_id : string) (data : doc).

(** What a call gives back.  Every collaborator call may raise; a disaster
    lookup may also return [None]; the model's answer is
    [response.content]; [uuid4] always returns an identifier. *)
Definition resp (o : op) : Type :=
  match o with
  | GetDisasterDocument _ => result (option doc)
  | ListResourcesForDisaster _ => result (list doc)
  | GeminiInvoke _ => result pyval
  | Uuid4 => string
  | ListTasksByUserAndDisaster _ _ => result (list doc)
  | DeleteDocument _ => result unit
  | SaveTaskDocument _ => result unit
  | DeleteUserRequestDocument _ => result unit
  | SaveUserRequestDocument _ _ => result unit
  end.

(** A program: returns, raises, or calls the environment and continues
    with its answer. *)
Inductive prog (A : Type) : Type :=
| Ret (a : A)
| Raise (e : exn)
| Call (o : op) (k : resp o → prog A).
Arguments Ret {A} a.
Arguments Raise {A} e.
Arguments Call {A} o k.

Fixpoint bind {A B} (p : prog A) (f : A → prog B) : prog B :=
  match p with
  | Ret a => f a
  | Raise e => Raise e
  | Call o k => Call o (fun r => bind (k r) f)
  end.

(** [try: p  except Exception as e: handler e] *)
Fixpoint try_except {A} (p : prog A) (handler : exn → prog A) : prog A :=
  match p with
  | Ret a => Ret a
  | Raise e => handler e
  | Call o k => Call o (fun r => try_except (k r) handler)
  end.

Definition lift {A} (r : result A) : prog A :=
  match r with
  | Ok a => Ret a
  | Err e => Raise e
  end.

#[global] Instance prog_bind : MBind prog := λ A B f p, bind p f.

(** An environment answers each call from its current state [W]. *)
Definition env (W : Type) : Type := ∀ o : op, W → resp o * W.

(** The run of a program: the calls made in order, the environment's final
    state, and the value returned or the exception that escaped. *)
Record run (W A : Type) : Type := Run {
  trace : list op;
  final : W;
  outcome : result A
}.
Arguments Run {W A} trace final outcome.
Arguments trace {W A} r.
Arguments final {W A} r.
Arguments outcome {W A} r.

Fixpoint exec {W A} (E : env W) (p : prog A) (w : W) : run W A :=
  match p with
  | Ret a => Run [] w (Ok a)
  | Raise e => Run [] w (Err e)
  | Call o k =>
      let '(r, w') := E o w in
      let rest := exec E (k r) w' in
      Run (o :: trace rest) (final rest) (outcome rest)
  end.

(** ** The pipeline state *)

(** [EmergencyRequestState].  The category is whatever the disaster document
    holds under ["emergency_type"], hence a [pyval]. *)
Record EmergencyRequestState : Type := State {
  disaster_id : string;
  user_id : string;
  help : string;
  urgency_type : string;
  latitude : string;
  longitude : string;
  emergency_type : pyval;
  nearby_resources : list doc;
  generated_task : doc;
  user_request_data : doc
}.

(** [{**state, "emergency_type": v}] and its siblings. *)
Definition with_emergency_type (state : EmergencyRequestState) (v : pyval) :=
  State (disaster_id state) (user_id state) (help state) (urgency_type state)
        (latitude state) (longitude state) v (nearby_resources state)
        (generated_task state) (user_request_data state).

Definition with_nearby_resources (state : EmergencyRequestState) (l : list doc) :=
  State (disaster_id state) (user_id state) (help state) (urgency_type state)
        (latitude state) (longitude state) (emergency_type state) l
        (generated_task state) (user_request_data state).

Definition with_generated_task (state : EmergencyRequestState) (task : doc) :=
  State (disaster_id state) (user_id state) (help state) (urgency_type state)
        (latitude state) (longitude state) (emergency_type state)
        (nearby_resources state) task (user_request_data state).

Definition with_user_request_data (state : EmergencyRequestState) (data : doc) :=
  State (disaster_id state) (user_id state) (help state) (urgency_type state)
        (latitude state) (longitude state) (emergency_type state)
        (nearby_resources state) (generated_task state) data.

(** ** Stage 1: fetch_disaster_type *)

Definition fetch_disaster_type (state : EmergencyRequestState)
  : prog EmergencyRequestState :=
  try_except
    (document ← Call (GetDisasterDocument (disaster_id state)) lift;
     emergency_type ←
       lift (match document with
             | Some d => Ok (dict_get_default d "emergency_type" (PStr "general emergency"))
             | None => Err (attribute_error PNone "get")
             end);
     Ret (with_emergency_type state emergency_type))
    (fun e => Raise (Exn "ValueError" ("Disaster data not found: " +:+ exn_str e))).

(** ** Stage 2: fetch_nearby_resources *)

(** [math.sqrt((user_lat - resource_lat) ** 2 + (user_lon - resource_lon) ** 2)] *)
Definition euclidean {lib : Builtins}
           (user_lat user_lon resource_lat resource_lon : spec_float)
  : result spec_float :=
  dlat2 ← float_pow2 (Float64.sub user_lat resource_lat);
  dlon2 ← float_pow2 (Float64.sub user_lon resource_lon);
  math_sqrt (Float64.add dlat2 dlon2).

(** [{**doc, "distance": distance, "resource_id": doc["$id"]}] *)
Definition resource_data (d : doc) (distance : spec_float) (id : pyval) : doc :=
  <["resource_id" := id]> (<["distance" := PFloat distance]> d).

Definition has_coordinates (d : doc) : bool :=
  truthy (dict_get d "latitude") && truthy (dict_get d "longitude").

(** The [for doc in documents] loop: the entries appended, in order, or the
    first exception raised. *)
Fixpoint collect_resources {lib : Builtins}
         (user_lat user_lon : spec_float) (documents : list doc)
  : result (list doc) :=
  match documents with
  | [] => Ok []
  | d :: rest =>
      if has_coordinates d then
        lat ← dict_subscript d "latitude";
        resource_lat ← py_float lat;
        lon ← dict_subscript d "longitude";
        resource_lon ← py_float lon;
        distance ← euclidean user_lat user_lon resource_lat resource_lon;
        id ← dict_subscript d "$id";
        more ← collect_resources user_lat user_lon rest;
        Ok (resource_data d distance id :: more)
      else collect_resources user_lat user_lon rest
  end.

(** The sort key [x.get("distance", float("inf"))].  Every collected entry
    holds a float under ["distance"]; the last case does not arise. *)
Definition distance_key (x : doc) : spec_float :=
  match x !! "distance" with
  | Some (PFloat f) => f
  | _ => Float64.inf
  end.

(** [list.sort(key=...)]: a stable sort that compares keys with [<].  On
    keys that [<] orders totally (floats without NaN) every stable sort,
    [list.sort] among them, returns this list; what is proved of the order
    assumes such keys.  With a NaN key [list.sort] returns some permutation,
    not always this one. *)
Fixpoint insert_by_distance (x : doc) (l : list doc) : list doc :=
  match l with
  | [] => [x]
  | y :: l' =>
      if Float64.ltb (distance_key y) (distance_key x)
      then y :: insert_by_distance x l'
      else x :: l
  end.

Definition sort_by_distance (l : list doc) : list doc :=
  foldr insert_by_distance [] l.

(** The body of the [try] block. *)
Definition rank_resources {lib : Builtins} (state : EmergencyRequestState)
  : prog EmergencyRequestState :=
  documents ← Call (ListResourcesForDisaster (disaster_id state)) lift;
  user_lat ← lift (py_float (PStr (latitude state)));
  user_lon ← lift (py_float (PStr (longitude state)));
  nearby ← lift (collect_resources user_lat user_lon documents);
  Ret (with_nearby_resources state (take 5 (sort_by_distance nearby))).

Definition fetch_nearby_resources {lib : Builtins} (state : EmergencyRequestState)
  : prog EmergencyRequestState :=
  try_except (rank_resources state)
             (fun _ => Ret (with_nearby_resources state [])).

(** ** Stage 3: generate_emergency_task *)

Definition nl : string := String (ascii_of_N 10) EmptyString.

Definition inappropriate_keywords : list string :=
  ["sexy"; "kiss"; "love"; "haha"; "lol"; "prank"; "joke"; "fake"].

Definition food_keywords : list string :=
  ["food"; "hungry"; "hunger"; "starving"; "eat"; "meal"; "water"; "thirsty"; "drink"].

Definition medical_keywords : list string :=
  ["medical"; "injury"; "hurt"; "bleeding"; "unconscious"; "rescue"; "trapped";
   "fire"; "pain"; "sick"; "ill"].

Definition mass_keywords : list string :=
  ["many people"; "multiple people"; "crowd"; "group"; "families"; "everyone"].

Definition verification_description : string :=
  "Verify request details and assess if legitimate emergency assistance is needed.".

(** [if urgency == "moderate": urgency = "medium"] *)
Definition normalize_urgency (urgency : string) : string :=
  if String.eqb urgency "moderate" then "medium" else urgency.

(** The role list chosen from the model's ["roles"] answer. *)
Definition valid_roles_of (ai_selected_role : pyval) : list string :=
  match ai_selected_role with
  | PStr s =>
      if String.eqb s "both" then ["vol"; "fr"]
      else if String.eqb s "vol" || String.eqb s "fr" then [s]
      else ["vol"]
  | _ => ["vol"]
  end.

(** Strips an optional code fence from the model's answer. *)
Definition strip_code_fence {lib : Builtins} (ai_response : string) : string :=
  if Str.startswith ai_response "```json"
  then str_strip (Str.replace (Str.replace ai_response "```json" "") "```" "")
  else if Str.startswith ai_response "```"
  then str_strip (Str.replace ai_response "```" "")
  else ai_response.

Section Workflow.
Context {lib : Builtins}.

(** [json.loads], a library function: the value parsed, or the exception
    raised on malformed text. *)
Variable json_loads : string → result pyval.

(** How an f-string renders a value that is not a str ([str(v)]). *)
Variable format_other : pyval → string.

(** [f"{v}"] *)
Definition py_format (v : pyval) : string :=
  match v with
  | PStr s => s
  | _ => format_other v
  end.

Definition resource_lines (resource : doc) : string :=
  "- " +:+ py_format (dict_get_default resource "name" (PStr "Unknown"))
  +:+ ": " +:+ py_format (dict_get_default resource "type" (PStr "general"))
  +:+ " at (" +:+ py_format (dict_get resource "latitude")
  +:+ ", " +:+ py_format (dict_get resource "longitude") +:+ ")" +:+ nl
  +:+ "  Description: "
  +:+ py_format (dict_get_default resource "description" (PStr "No description")) +:+ nl
  +:+ "  Contact: "
  +:+ py_format (dict_get_default resource "contact" (PStr "No contact")) +:+ nl
  +:+ "  Status: "
  +:+ py_format (dict_get_default resource "status" (PStr "unknown")) +:+ nl.

Definition resource_info (nearby_resources : list doc) : string :=
  match nearby_resources with
  | [] => "No nearby resources identified."
  | _ =>
      foldl (fun info resource => info +:+ resource_lines resource)
            ("Available nearby resources:" +:+ nl)
            (take 3 nearby_resources)
  end.

Definition location (latitude longitude : string) : string :=
  "(" +:+ latitude +:+ ", " +:+ longitude +:+ ")".

(** The keyword classifier of the [except] block: the description and the
    roles it settles on. *)
Definition fallback_classify (help_needed urgency latitude longitude : string)
           (nearby_resources : list doc) : string * list string :=
  let help_lower := str_lower help_needed in
  let is_inappropriate := Str.any_in inappropriate_keywords help_lower in
  if is_inappropriate then (verification_description, ["vol"])
  else
    let needs_food := Str.any_in food_keywords help_lower in
    let needs_medical := Str.any_in medical_keywords help_lower in
    let mass_casualty := Str.any_in mass_keywords help_lower in
    let '(description, roles) :=
      if mass_casualty && (needs_medical || String.eqb urgency "high") then
        ("Coordinate emergency response for multiple people needing "
           +:+ help_needed +:+ " at location " +:+ location latitude longitude +:+ ".",
         ["vol"; "fr"])
      else if needs_medical || String.eqb urgency "high" then
        ("Provide immediate medical assistance to person needing "
           +:+ help_needed +:+ " at location " +:+ location latitude longitude +:+ ".",
         ["fr"])
      else if needs_food then
        ("Deliver food and water supplies to person at location "
           +:+ location latitude longitude +:+ ".",
         ["vol"])
      else
        ("Assist person needing " +:+ help_needed +:+ " at location "
           +:+ location latitude longitude +:+ ".",
         ["vol"]) in
    match nearby_resources with
    | closest_resource :: _ =>
        (description +:+ " Coordinate with "
           +:+ py_format (dict_get_default closest_resource "name" (PStr "nearby resource"))
           +:+ " for assistance.",
         roles)
    | [] => (description, roles)
    end.

(** The fields both task dicts share. *)
Definition task_common (state : EmergencyRequestState) (urgency task_id description : string)
           (roles : list string) (lat lon : spec_float) (is_fallback : bool)
           (ai_reasoning : pyval) : doc :=
  list_to_map
    [("task_id", PStr task_id);
     ("description", PStr description);
     ("status", PStr "pending");
     ("action_done_by", PStr "");
     ("roles", PList (PStr <$> roles));
     ("emergency_type", emergency_type state);
     ("urgency_level", PStr urgency);
     ("latitude", PFloat lat);
     ("longitude", PFloat lon);
     ("help_needed", PStr (help state));
     ("user_id", PStr (user_id state));
     ("disaster_id", PStr (disaster_id state));
     ("is_fallback", PBool is_fallback);
     ("first_Task", PBool false);
     ("ai_reasoning", ai_reasoning)].

(** The request sent to the model. *)
Definition model_request (state : EmergencyRequestState) (urgency : string) : prompt :=
  Prompt (emergency_type state) (help state) urgency (latitude state)
         (longitude state) (resource_info (nearby_resources state)).

(** The [try] block: ask the model and build the task from its answer. *)
Definition generate_primary (state : EmergencyRequestState) (urgency : string)
  : prog EmergencyRequestState :=
  content ← Call (GeminiInvoke (model_request state urgency)) lift;
  ai_response ← lift (py_strip content);
  ai_data ← lift (json_loads (strip_code_fence ai_response));
  description ← lift (py_get_default ai_data "description" (PStr ""));
  ai_generated_description ← lift (py_strip description);
  ai_selected_role ← lift (py_get_default ai_data "roles" (PStr "vol"));
  let valid_roles := valid_roles_of ai_selected_role in
  if Str.is_empty ai_generated_description
  then Raise (Exn "ValueError" "Empty description from Gemini")
  else
    task_id ← Call Uuid4 Ret;
    lat ← lift (py_float (PStr (latitude state)));
    lon ← lift (py_float (PStr (longitude state)));
    reasoning ← lift (py_get_default ai_data "reasoning"
                                      (PStr "AI-determined role assignment"));
    utilization ← lift (py_get_default ai_data "resource_utilization" (PStr "none"));
    Ret (with_generated_task state
           (<["resource_utilization" := utilization]>
              (task_common state urgency task_id ai_generated_description
                           valid_roles lat lon false reasoning))).

(** The [except] block. *)
Definition generate_fallback (state : EmergencyRequestState) (urgency : string)
  : prog EmergencyRequestState :=
  emergency_lower ← lift (py_lower (emergency_type state));
  let '(description, roles) :=
    fallback_classify (help state) urgency (latitude state) (longitude state)
                      (nearby_resources state) in
  task_id ← Call Uuid4 Ret;
  lat ← lift (py_float (PStr (latitude state)));
  lon ← lift (py_float (PStr (longitude state)));
  Ret (with_generated_task state
         (task_common state urgency task_id description roles lat lon true
            (PStr "Intelligent fallback assignment based on context analysis"))).

Definition generate_emergency_task (state : EmergencyRequestState)
  : prog EmergencyRequestState :=
  let urgency := normalize_urgency (urgency_type state) in
  try_except (generate_primary state urgency)
             (fun _ => generate_fallback state urgency).

(** ** Stage 4: save_task_to_db *)

(** [a or b] *)
Definition py_or (a b : pyval) : pyval := if truthy a then a else b.

Definition existing_task_id (task : doc) : pyval :=
  py_or (dict_get task "$id") (dict_get task "task_id").

(** [task_id and not task.get("first_Task", False)] *)
Definition deletable (task : doc) : bool :=
  truthy (existing_task_id task)
  && negb (truthy (dict_get_default task "first_Task" (PBool false))).

(** The [for task in existing_tasks] loop; a failed delete is passed over. *)
Fixpoint delete_existing (existing_tasks : list doc) : prog unit :=
  match existing_tasks with
  | [] => Ret tt
  | task :: rest =>
      _ ← (if deletable task
           then try_except (Call (DeleteDocument (existing_task_id task)) lift)
                           (fun _ => Ret tt)
           else Ret tt);
      delete_existing rest
  end.

Definition save_task_to_db (state : EmergencyRequestState)
  : prog EmergencyRequestState :=
  _ ← try_except
        (existing_tasks ←
           Call (ListTasksByUserAndDisaster (user_id state) (disaster_id state)) lift;
         delete_existing existing_tasks)
        (fun _ => Ret tt);
  _ ← try_except (Call (SaveTaskDocument (generated_task state)) lift)
                 (fun _ => Ret tt);
  Ret state.

(** ** Stage 5: save_user_request *)

Definition save_user_request (state : EmergencyRequestState)
  : prog EmergencyRequestState :=
  task_id ← lift (dict_subscript (generated_task state) "task_id");
  roles ← lift (dict_subscript (generated_task state) "roles");
  let user_request_data : doc :=
    list_to_map
      [("disaster_id", PStr (disaster_id state));
       ("help", PStr (help state));
       ("urgency_type", PStr (urgency_type state));
       ("latitude", PStr (latitude state));
       ("longitude", PStr (longitude state));
       ("emergency_type", emergency_type state);
       ("task_id", task_id);
       ("status", PStr "submitted");
       ("feedback", PNone);
       ("assigned_roles", roles);
       ("ai_reasoning",
         dict_get_default (generated_task state) "ai_reasoning"
                          (PStr "No reasoning provided"));
       ("userId", PStr (user_id state))] in
  _ ← try_except
        (_ ← try_except (Call (DeleteUserRequestDocument (user_id state)) lift)
                        (fun _ => Ret tt);
         Call (SaveUserRequestDocument (user_id state) user_request_data) lift)
        (fun _ => Ret tt);
  Ret (with_user_request_data state user_request_data).

(** ** The graph: five nodes run in sequence *)

Definition create_emergency_request_graph (state : EmergencyRequestState)
  : prog EmergencyRequestState :=
  s1 ← fetch_disaster_type state;
  s2 ← fetch_nearby_resources s1;
  s3 ← generate_emergency_task s2;
  s4 ← save_task_to_db s3;
  save_user_request s4.

Definition process_emergency_request
           (disaster_id user_id help urgency_type latitude longitude : string)
  : prog EmergencyRequestState :=
  create_emergency_request_graph
    (State disaster_id user_id help urgency_type latitude longitude
           (PStr "") [] ∅ ∅).

(** [delete_task_by_id]: administrative cleanup, outside the pipeline. *)
Definition delete_task_by_id (task_id : string) : prog unit :=
  try_except (Call (DeleteDocument (PStr task_id)) lift) (fun _ => Ret tt).

End Workflow.

(** ** Vocabulary of the properties *)

(** A float that is not NaN, placed in the lexicographic order on triples of
    integers: its class, then exponent and mantissa signed like the float. *)
Definition float_rank (x : spec_float) : Z * Z * Z :=
  match x with
  | S754_nan => (0, 0, 0)
  | S754_infinity true => (-2, 0, 0)
  | S754_infinity false => (2, 0, 0)
  | S754_zero _ => (0, 0, 0)
  | S754_finite true m e => (-1, - e, Zneg m)
  | S754_finite false m e => (1, e, Zpos m)
  end.

Definition lex_le (a b : Z * Z * Z) : Prop :=
  let '(a1, a2, a3) := a in
  let '(b1, b2, b3) := b in
  a1 < b1 ∨ (a1 = b1 ∧ (a2 < b2 ∨ (a2 = b2 ∧ a3 ≤ b3))).

Definition lex_lt (a b : Z * Z * Z) : Prop :=
  let '(a1, a2, a3) := a in
  let '(b1, b2, b3) := b in
  a1 < b1 ∨ (a1 = b1 ∧ (a2 < b2 ∨ (a2 = b2 ∧ a3 < b3))).

(** [x] is ranked no farther than [y]: Python's [<=] on their distances. *)
Definition distance_le (x y : doc) : Prop :=
  Float64.leb (distance_key x) (distance_key y) = true.

Definition no_nan_key (x : doc) : Prop := Float64.is_nan (distance_key x) = false.

(** The distance the ranker computes for a listed document. *)
Definition resource_distance {lib : Builtins} (state : EmergencyRequestState) (d : doc)
  : result spec_float :=
  user_lat ← py_float (PStr (latitude state));
  user_lon ← py_float (PStr (longitude state));
  resource_lat ← py_float (dict_get d "latitude");
  resource_lon ← py_float (dict_get d "longitude");
  euclidean user_lat user_lon resource_lat resource_lon.

(** What the [try] block of the ranker computes from the listing. *)
Definition ranking {lib : Builtins} (state : EmergencyRequestState) (documents : list doc)
  : result (list doc) :=
  user_lat ← py_float (PStr (latitude state));
  user_lon ← py_float (PStr (longitude state));
  nearby ← collect_resources user_lat user_lon documents;
  Ok (take 5 (sort_by_distance nearby)).

(** [r] is an entry the ranking loop appends for some listed document. *)
Definition entry_of {lib : Builtins} (user_lat user_lon : spec_float)
           (documents : list doc) (r : doc) : Prop :=
  ∃ d resource_lat resource_lon dist id,
    d ∈ documents ∧ has_coordinates d = true
    ∧ py_float (dict_get d "latitude") = Ok resource_lat
    ∧ py_float (dict_get d "longitude") = Ok resource_lon
    ∧ euclidean user_lat user_lon resource_lat resource_lon = Ok dist
    ∧ r = resource_data d dist id.

(** The inputs on which the [except] block of the Task Synthesizer can build
    its task: the category is a str and both coordinate strings convert to
    floats. *)
Definition fallback_ready {lib : Builtins} (state : EmergencyRequestState) : bool :=
  match emergency_type state,
        float_of_str (latitude state), float_of_str (longitude state) with
  | PStr _, Ok _, Ok _ => true
  | _, _, _ => false
  end.

(** The [try] block of the Task Synthesizer raised, so its [except] block ran. *)
Definition primary_raised {lib : Builtins} (json_loads : string → result pyval)
           (format_other : pyval → string) {W : Type} (E : env W) (w : W)
           (state : EmergencyRequestState) : Prop :=
  ∃ e,
    outcome (exec E (generate_primary json_loads format_other state
                       (normalize_urgency (urgency_type state))) w)
    = Err e.

(** The model answered the request of [state] with text that parses to the
    JSON object [answer]. *)
Definition model_answered {lib : Builtins} (json_loads : string → result pyval)
           (format_other : pyval → string) {W : Type} (E : env W) (w : W)
           (state : EmergencyRequestState) (answer : doc) : Prop :=
  ∃ content text w1,
    E (GeminiInvoke (model_request format_other state
                       (normalize_urgency (urgency_type state)))) w
    = (Ok content, w1)
    ∧ py_strip content = Ok text
    ∧ json_loads (strip_code_fence text) = Ok (PDict answer).

(** A non-empty list of roles drawn from [vol] and [fr]. *)
Definition allowed_roles (roles : list string) : Prop :=
  roles = ["vol"] ∨ roles = ["fr"] ∨ roles = ["vol"; "fr"].

(** The identifiers the Task Persister asks the store to delete. *)
Definition deletions (existing : list doc) : list pyval :=
  existing_task_id <$> List.filter deletable existing.

(** ** Scripted environments

    An environment that answers every call from a fixed script; used to run
    the stages on concrete requests. *)

Record scenario : Type := Scenario {
  disaster_answer : result (option doc);
  resources_answer : result (list doc);
  model_answer : result pyval;
  tasks_answer : result (list doc);
  delete_answer : pyval → result unit;
  save_answer : result unit
}.

Definition scripted (sc : scenario) : env unit := λ o w,
  match o return resp o * unit with
  | GetDisasterDocument _ => (disaster_answer sc, w)
  | ListResourcesForDisaster _ => (resources_answer sc, w)
  | GeminiInvoke _ => (model_answer sc, w)
  | Uuid4 => ("7c9e6679-7425-40de-944b-e07fc1f90ae7", w)
  | ListTasksByUserAndDisaster _ _ => (tasks_answer sc, w)
  | DeleteDocument id => (delete_answer sc id, w)
  | SaveTaskDocument _ => (save_answer sc, w)
  | DeleteUserRequestDocument _ => (Ok tt, w)
  | SaveUserRequestDocument _ _ => (save_answer sc, w)
  end.

Definition unavailable : exn := Exn "ConnectionError" "service unavailable".

(** A resource document with string coordinates. *)
Definition resource_doc (id name lat lon : string) : doc :=
  list_to_map [("$id", PStr id); ("name", PStr name);
               ("latitude", PStr lat); ("longitude", PStr lon)].

(** The request of the specification's example. *)
Definition sample_request (help urgency latitude longitude : string)
  : EmergencyRequestState :=
  State "d1" "u1" help urgency latitude longitude (PStr "flood") [] ∅ ∅.

(** The store lists [documents]; the model is unavailable. *)
Definition listing (documents : list doc) : scenario :=
  Scenario (Ok (Some {["emergency_type" := PStr "flood"]})) (Ok documents)
           (Err unavailable) (Ok []) (λ _, Ok tt) (Ok tt).

(** Stand-ins for Python's built-in functions, used when a stage is run on
    a concrete request: the ASCII versions of [lower], [strip] and [float],
    and the correctly rounded square.  The requests and documents of the
    examples are ASCII text, and their squared differences are floats or
    out of range.  The message of [ascii_float] is Python's for text without
    quotes, backslashes and control characters. *)
Definition ascii_float (s : string) : result spec_float :=
  match Float64.of_ascii_string s with
  | Some f => Ok f
  | None => Err (Exn "ValueError" ("could not convert string to float: '" +:+ s +:+ "'"))
  end.

Definition ascii_builtins : Builtins :=
  {| str_lower := Str.ascii_lower;
     str_strip := Str.ascii_strip;
     float_of_str := ascii_float;
     float_pow2 := rounded_pow2 |}.

(** Stand-ins for the two other library functions: a [json.loads] that
    knows one answer text, and a rendering of values that are not strings. *)

Definition dq : string := String (ascii_of_N 34) EmptyString.

(** The text [{"description": "Deliver food supplies to person at location", "roles": "both"}],
    in a code fence. *)
Definition sample_answer_json : string :=
  "{" +:+ dq +:+ "description" +:+ dq +:+ ": " +:+ dq
      +:+ "Deliver food supplies to person at location" +:+ dq +:+ ", "
      +:+ dq +:+ "roles" +:+ dq +:+ ": " +:+ dq +:+ "both" +:+ dq +:+ "}".

Definition sample_answer_text : string :=
  "```json" +:+ nl +:+ sample_answer_json +:+ nl +:+ "```".

Definition sample_answer : doc :=
  list_to_map [("description", PStr "Deliver food supplies to person at location");
               ("roles", PStr "both")].

Definition sample_json_loads (text : string) : result pyval :=
  if String.eqb text sample_answer_json then Ok (PDict sample_answer)
  else Err (Exn "JSONDecodeError" "Expecting value: line 1 column 1 (char 0)").

Definition sample_format (v : pyval) : string :=
  match v with
  | PNone => "None"
  | PBool true => "True"
  | PBool false => "False"
  | _ => type_name v
  end.

(** The store lists no resources and the model answers [content]. *)
Definition answering (content : pyval) : scenario :=
  Scenario (Ok (Some {["emergency_type" := PStr "flood"]})) (Ok [])
           (Ok content) (Ok []) (λ _, Ok tt) (Ok tt).

(** Eight listed resources around (12.0, 77.0); two lack a usable
    coordinate pair and one lies farther away than the five nearest. *)
Definition sample_listing : list doc :=
  [resource_doc "a" "Shelter A" "12.5" "77.0";
   resource_doc "b" "Depot B" "12.25" "77.25";
   resource_doc "c" "Clinic C" "13" "78";
   resource_doc "d" "Camp D" "" "78";
   resource_doc "f" "Kitchen F" "12.0" "77.0";
   resource_doc "g" "Depot G" "-12.0" "77.0";
   resource_doc "h" "Shelter H" "12.0" "77.5";
   delete "longitude" (resource_doc "i" "Well I" "12.0" "77.5")].

(** A listing in which one resource has latitude "nan". *)
Definition nan_listing : list doc :=
  [resource_doc "a" "Shelter A" "2" "0";
   resource_doc "b" "Depot B" "nan" "0";
   resource_doc "c" "Clinic C" "1" "0"].

(** A listing in which one resource has a latitude that is no number. *)
Definition malformed_listing : list doc :=
  [resource_doc "a" "Shelter A" "12.5" "77.0";
   resource_doc "b" "Depot B" "north" "77.1"].

(** A stored task document. *)
Definition task_doc (id : string) (first_Task : option bool) : doc :=
  match first_Task with
  | Some b => <["first_Task" := PBool b]> {["$id" := PStr id]}
  | None => {["$id" := PStr id]}
  end.

(** The store holds three tasks of the user; deleting "t2" fails, and so
    does the final write. *)
Definition flaky_store : scenario :=
  Scenario (Ok (Some {["emergency_type" := PStr "flood"]})) (Ok [])
           (Err unavailable)
           (Ok [task_doc "t1" (Some true); task_doc "t2" (Some false); task_doc "t3" None])
           (λ id, match id with
                  | PStr "t2" => Err unavailable
                  | _ => Ok tt
                  end)
           (Err unavailable).

(** The store cannot fetch the disaster document. *)
Definition no_disaster (answer : result (option doc)) : scenario :=
  Scenario answer (Ok []) (Err unavailable) (Ok []) (λ _, Ok tt) (Ok tt).

Definition sample_generate : EmergencyRequestState → prog EmergencyRequestState :=
  generate_emergency_task (lib := ascii_builtins) sample_json_loads sample_format.

(** ** Vocabulary and samples of the further properties *)

(** The body of the ranking loop for a document that has both coordinates:
    the entry appended, or the exception raised. *)
Definition resource_entry {lib : Builtins} (user_lat user_lon : spec_float) (d : doc)
  : result doc :=
  resource_lat ← py_float (dict_get d "latitude");
  resource_lon ← py_float (dict_get d "longitude");
  distance ← euclidean user_lat user_lon resource_lat resource_lon;
  id ← dict_subscript d "$id";
  Ok (resource_data d distance id).

(** The text has no backtick. *)
Definition no_backtick (s : string) : bool := negb (Str.contains "`" s).

(** The description of the model's answer is missing, blank, or no str. *)
Definition description_unusable {lib : Builtins} (answer : doc) : bool :=
  match py_strip (dict_get_default answer "description" (PStr "")) with
  | Ok description => Str.is_empty description
  | Err _ => true
  end.

(** The calls that ask the store to change: task and request-record writes
    and deletes. *)
Definition is_write (o : op) : bool :=
  match o with
  | DeleteDocument _ | SaveTaskDocument _
  | DeleteUserRequestDocument _ | SaveUserRequestDocument _ _ => true
  | _ => false
  end.

(** The store finds the disaster document [d]; nothing else is scripted to fail. *)
Definition found (d : doc) : scenario :=
  Scenario (Ok (Some d)) (Ok []) (Err unavailable) (Ok []) (λ _, Ok tt) (Ok tt).

(** A state as the Task Synthesizer leaves it: the task of the example request. *)
Definition sample_task : doc :=
  list_to_map [("task_id", PStr "7c9e6679-7425-40de-944b-e07fc1f90ae7");
               ("roles", PList [PStr "vol"]);
               ("ai_reasoning", PStr "Intelligent fallback assignment based on context analysis")].

(** A [json.loads] stand-in that reads every text as the object [answer]. *)
Definition always_parses (answer : doc) (text : string) : result pyval := Ok (PDict answer).

(** The pipeline with the stand-in library functions. *)
Definition sample_pipeline : EmergencyRequestState → prog EmergencyRequestState :=
  create_emergency_request_graph (lib := ascii_builtins) sample_json_loads sample_format.

(** Two listed resources near the origin, for a requester so far away that
    the squared difference of the latitudes leaves the float range. *)
Definition distant_listing : list doc :=
  [resource_doc "a" "Shelter A" "0" "0"; resource_doc "b" "Depot B" "1" "1"].

(** Three listed resources around (12.0, 77.0), one without a longitude. *)
Definition short_listing : list doc :=
  [resource_doc "a" "Shelter A" "12.5" "77.0";
   delete "longitude" (resource_doc "i" "Well I" "12.0" "77.5");
   resource_doc "f" "Kitchen F" "12.0" "77.0"].

(** * Properties *)

Arguments py_float : simpl never.
Arguments py_strip : simpl never.
Arguments py_lower : simpl never.
Arguments py_get_default : simpl never.
Arguments dict_subscript : simpl never.
Arguments euclidean : simpl never.
Arguments collect_resources : simpl never.
Arguments sort_by_distance : simpl never.
Arguments fallback_classify : simpl never.
Arguments task_common : simpl never.
Arguments resource_info : simpl never.
Arguments model_request : simpl never.
Arguments strip_code_fence : simpl never.
Arguments normalize_urgency : simpl never.
Arguments existing_task_id : simpl never.
Arguments deletable : simpl never.

(** Replaces the left side of an equation by its value. *)
Ltac evaluate :=
  match goal with
  | |- ?l = _ =>
      let v := eval vm_compute in l in
      apply (@eq_trans _ _ v); [vm_cast_no_check (eq_refl v)|]
  end.

(** ** The order on floats *)

(** Settles a comparison of two finite floats of the same sign from the
    comparisons of their exponents and mantissas. *)
Ltac compare_finite ea eb ma mb :=
  destruct (Z.compare_spec ea eb); simpl;
  [ rewrite Pos.compare_cont_spec; simpl; destruct (Pos.compare_spec ma mb); simpl | | ];
  split; intros; try discriminate; try reflexivity; lia.

Ltac compare_floats a b :=
  destruct a as [?|?| |? ?ma ?ea], b as [?|?| |? ?mb ?eb]; simpl; try discriminate;
  intros _ _;
  repeat match goal with s : bool |- _ => destruct s end; simpl;
  try (split; [intros _; lia | reflexivity]);
  try (split; [discriminate | lia]);
  match goal with
  | |- context [Z.compare ?ea ?eb] =>
      match goal with
      | |- context [Pos.compare_cont _ ?ma ?mb] => compare_finite ea eb ma mb
      end
  end.

Lemma leb_rank (a b : spec_float) :
  Float64.is_nan a = false → Float64.is_nan b = false →
  Float64.leb a b = true ↔ lex_le (float_rank a) (float_rank b).
Proof. unfold Float64.leb, SFleb, lex_le. compare_floats a b. Qed.

Lemma ltb_rank (a b : spec_float) :
  Float64.is_nan a = false → Float64.is_nan b = false →
  Float64.ltb a b = true ↔ lex_lt (float_rank a) (float_rank b).
Proof. unfold Float64.ltb, SFltb, lex_lt. compare_floats a b. Qed.

Lemma leb_not_nan (a b : spec_float) :
  Float64.leb a b = true → Float64.is_nan a = false ∧ Float64.is_nan b = false.
Proof. destruct a, b; simpl; auto; discriminate. Qed.

Lemma leb_trans (a b c : spec_float) :
  Float64.leb a b = true → Float64.leb b c = true → Float64.leb a c = true.
Proof.
  intros Hab Hbc.
  destruct (leb_not_nan _ _ Hab) as [Ha Hb], (leb_not_nan _ _ Hbc) as [_ Hc].
  apply leb_rank in Hab, Hbc; try assumption. apply leb_rank; try assumption.
  destruct (float_rank a) as [[??]?], (float_rank b) as [[??]?], (float_rank c) as [[??]?].
  unfold lex_le in *. lia.
Qed.

Lemma ltb_false_leb (a b : spec_float) :
  Float64.is_nan a = false → Float64.is_nan b = false →
  Float64.ltb a b = false → Float64.leb b a = true.
Proof.
  intros Ha Hb Hlt. apply leb_rank; try assumption.
  assert (¬ lex_lt (float_rank a) (float_rank b)) as Hn.
  { intros H. apply ltb_rank in H; try assumption. congruence. }
  destruct (float_rank a) as [[??]?], (float_rank b) as [[??]?].
  unfold lex_le, lex_lt in *. lia.
Qed.

Lemma ltb_leb (a b : spec_float) : Float64.ltb a b = true → Float64.leb a b = true.
Proof.
  unfold Float64.ltb, Float64.leb, SFltb, SFleb.
  destruct (SFcompare a b) as [[]|]; congruence.
Qed.

(** ** Sorting by distance *)

Lemma insert_by_distance_perm (x : doc) (l : list doc) :
  insert_by_distance x l ≡ₚ x :: l.
Proof.
  induction l as [|y l IH]; simpl; [done|].
  destruct (Float64.ltb _ _); [|done].
  rewrite IH. apply Permutation_swap.
Qed.

Lemma sort_by_distance_perm (l : list doc) : sort_by_distance l ≡ₚ l.
Proof.
  unfold sort_by_distance.
  induction l as [|x l IH]; simpl; [done|].
  rewrite insert_by_distance_perm. by rewrite IH.
Qed.

Lemma insert_by_distance_sorted (x : doc) (l : list doc) :
  no_nan_key x → Forall no_nan_key l →
  StronglySorted distance_le l → StronglySorted distance_le (insert_by_distance x l).
Proof.
  intros Hx Hl Hs. induction Hs as [|y l Hs IH Hy]; simpl.
  - repeat constructor.
  - apply Forall_cons in Hl as [Hny Hl].
    destruct (Float64.ltb (distance_key y) (distance_key x)) eqn:Hlt.
    + constructor; [by apply IH|].
      rewrite insert_by_distance_perm. constructor; [|done].
      by apply ltb_leb.
    + assert (distance_le x y) as Hxy by by apply ltb_false_leb.
      constructor; [by constructor|].
      constructor; [done|].
      eapply Forall_impl; [exact Hy|]. intros z Hz. by eapply leb_trans.
Qed.

Lemma sort_by_distance_sorted (l : list doc) :
  Forall no_nan_key l → StronglySorted distance_le (sort_by_distance l).
Proof.
  unfold sort_by_distance.
  induction 1 as [|x l Hx Hl IH]; simpl; [constructor|].
  apply insert_by_distance_sorted; [done| |done].
  by rewrite (sort_by_distance_perm l).
Qed.

Lemma StronglySorted_take {A} (R : A → A → Prop) (n : nat) (l : list A) :
  StronglySorted R l → StronglySorted R (take n l).
Proof.
  intros Hs. revert n. induction Hs as [|x l Hs IH Hx]; intros [|n]; simpl; try constructor.
  - apply IH.
  - eapply Forall_forall. intros y Hy. eapply Forall_forall in Hx; [exact Hx|].
    eapply subseteq_take, Hy.
Qed.

(** ** Running programs *)

Section Exec.
Context {lib : Builtins} {W : Type} (E : env W).

Lemma exec_bind {A B} (p : prog A) (f : A → prog B) (w : W) :
  exec E (p ≫= f) w =
    match outcome (exec E p w) with
    | Ok a =>
        let r2 := exec E (f a) (final (exec E p w)) in
        Run (trace (exec E p w) ++ trace r2) (final r2) (outcome r2)
    | Err e => Run (trace (exec E p w)) (final (exec E p w)) (Err e)
    end.
Proof.
  revert w. induction p as [a|e|o k IH]; intros w; simpl.
  - by destruct (exec E (f a) w).
  - done.
  - destruct (E o w) as [r w']. simpl.
    change (exec E (bind (k r) f) w') with (exec E (k r ≫= f) w').
    rewrite IH. by destruct (outcome (exec E (k r) w')).
Qed.

Lemma exec_try_except {A} (p : prog A) (handler : exn → prog A) (w : W) :
  exec E (try_except p handler) w =
    match outcome (exec E p w) with
    | Ok a => Run (trace (exec E p w)) (final (exec E p w)) (Ok a)
    | Err e =>
        let r2 := exec E (handler e) (final (exec E p w)) in
        Run (trace (exec E p w) ++ trace r2) (final r2) (outcome r2)
    end.
Proof.
  revert w. induction p as [a|e|o k IH]; intros w; simpl.
  - done.
  - by destruct (exec E (handler e) w).
  - destruct (E o w) as [r w']. simpl.
    rewrite IH. by destruct (outcome (exec E (k r) w')).
Qed.

End Exec.

(** ** The Resource Ranker *)

Lemma distance_key_resource_data (d : doc) (dist : spec_float) (id : pyval) :
  distance_key (resource_data d dist id) = dist.
Proof.
  unfold distance_key, resource_data.
  rewrite lookup_insert_ne by done. by rewrite lookup_insert_eq.
Qed.

Lemma resource_data_latitude (d : doc) (dist : spec_float) (id : pyval) :
  resource_data d dist id !! "latitude" = d !! "latitude".
Proof. unfold resource_data. by rewrite !lookup_insert_ne. Qed.

Lemma resource_data_longitude (d : doc) (dist : spec_float) (id : pyval) :
  resource_data d dist id !! "longitude" = d !! "longitude".
Proof. unfold resource_data. by rewrite !lookup_insert_ne. Qed.

Lemma dict_subscript_get (d : doc) (key : string) (v : pyval) :
  dict_subscript d key = Ok v → d !! key = Some v ∧ dict_get d key = v.
Proof.
  unfold dict_subscript, dict_get. destruct (d !! key); intros; simplify_eq. done.
Qed.

Lemma has_coordinates_present (d : doc) :
  has_coordinates d = true → is_Some (d !! "latitude") ∧ is_Some (d !! "longitude").
Proof.
  unfold has_coordinates, dict_get. intros [H1 H2]%andb_prop.
  split.
  - destruct (d !! "latitude"); [eauto|discriminate].
  - destruct (d !! "longitude"); [eauto|discriminate].
Qed.

Lemma entry_of_cons {lib : Builtins}
      (user_lat user_lon : spec_float) (d : doc) (rest : list doc) (r : doc) :
  entry_of user_lat user_lon rest r → entry_of user_lat user_lon (d :: rest) r.
Proof.
  intros (d' & la & lo & di & i & Hin & ?). exists d', la, lo, di, i.
  split; [by right|done].
Qed.

Lemma collect_resources_entries {lib : Builtins}
      (user_lat user_lon : spec_float) (documents nearby : list doc) :
  collect_resources user_lat user_lon documents = Ok nearby →
  Forall (entry_of user_lat user_lon documents) nearby.
Proof.
  revert nearby. induction documents as [|d rest IH]; intros nearby.
  - intros [= <-]. constructor.
  - unfold collect_resources; fold collect_resources.
    destruct (has_coordinates d) eqn:Hc.
    + destruct (dict_subscript d "latitude") as [lat|] eqn:Hlat; simpl; [|done].
      destruct (py_float lat) as [rlat|] eqn:Hrlat; simpl; [|done].
      destruct (dict_subscript d "longitude") as [lon|] eqn:Hlon; simpl; [|done].
      destruct (py_float lon) as [rlon|] eqn:Hrlon; simpl; [|done].
      destruct (euclidean user_lat user_lon rlat rlon) as [dist|] eqn:Hdist; simpl; [|done].
      destruct (dict_subscript d "$id") as [id|] eqn:Hid; simpl; [|done].
      destruct (collect_resources user_lat user_lon rest) as [more|] eqn:Hmore; simpl; [|done].
      intros [= <-].
      apply dict_subscript_get in Hlat as [_ <-], Hlon as [_ <-].
      constructor.
      * exists d, rlat, rlon, dist, id. repeat split; try done. by left.
      * eapply Forall_impl; [by apply IH|]. apply entry_of_cons.
    + intros Hrest. eapply Forall_impl; [by apply IH|]. apply entry_of_cons.
Qed.

Lemma collect_resources_malformed {lib : Builtins}
      (user_lat user_lon : spec_float) (documents : list doc) (d : doc) :
  d ∈ documents → has_coordinates d = true →
  (∃ e, py_float (dict_get d "latitude") = Err e)
  ∨ (∃ e, py_float (dict_get d "longitude") = Err e) →
  ∃ e, collect_resources user_lat user_lon documents = Err e.
Proof.
  intros Hin Hc Hbad. induction documents as [|d' rest IH]; [by apply elem_of_nil in Hin|].
  unfold collect_resources; fold collect_resources.
  apply elem_of_cons in Hin as [<-|Hin].
  - rewrite Hc.
    destruct (dict_subscript d "latitude") as [lat|] eqn:Hlat; simpl; [|eauto].
    apply dict_subscript_get in Hlat as [_ <-].
    destruct (py_float (dict_get d "latitude")) as [rlat|] eqn:Hrlat; simpl; [|eauto].
    destruct (dict_subscript d "longitude") as [lon|] eqn:Hlon; simpl; [|eauto].
    apply dict_subscript_get in Hlon as [_ <-].
    destruct (py_float (dict_get d "longitude")) as [rlon|] eqn:Hrlon; simpl; [|eauto].
    destruct Hbad as [[e He]|[e He]]; congruence.
  - destruct (IH Hin) as [e He]. rewrite He.
    destruct (has_coordinates d'); [|eauto].
    destruct (dict_subscript d' "latitude") as [lat|]; simpl; [|eauto].
    destruct (py_float lat); simpl; [|eauto].
    destruct (dict_subscript d' "longitude") as [lon|]; simpl; [|eauto].
    destruct (py_float lon); simpl; [|eauto].
    destruct (euclidean _ _ _ _); simpl; [|eauto].
    destruct (dict_subscript d' "$id"); simpl; eauto.
Qed.

Section Ranker.
Context {lib : Builtins} {W : Type} (E : env W).

Lemma exec_rank_resources (state : EmergencyRequestState) (w : W) :
  exec E (rank_resources state) w =
    Run [ListResourcesForDisaster (disaster_id state)]
        (E (ListResourcesForDisaster (disaster_id state)) w).2
        (documents ← (E (ListResourcesForDisaster (disaster_id state)) w).1;
         with_nearby_resources state <$> ranking state documents).
Proof.
  unfold rank_resources, ranking.
  simpl. destruct (E _ w) as [[documents|e] w1]; simpl; [|done].
  destruct (py_float (PStr (latitude state))) as [ulat|e]; simpl; [|done].
  destruct (py_float (PStr (longitude state))) as [ulon|e]; simpl; [|done].
  by destruct (collect_resources ulat ulon documents) as [nearby|e].
Qed.

Lemma exec_fetch_nearby_resources (state : EmergencyRequestState) (w : W) :
  exec E (fetch_nearby_resources state) w =
    Run [ListResourcesForDisaster (disaster_id state)]
        (E (ListResourcesForDisaster (disaster_id state)) w).2
        (Ok (with_nearby_resources state
               match (documents ← (E (ListResourcesForDisaster (disaster_id state)) w).1;
                      ranking state documents) with
               | Ok ranked => ranked
               | Err _ => []
               end)).
Proof.
  unfold fetch_nearby_resources.
  rewrite exec_try_except, exec_rank_resources. simpl.
  destruct (E _ w) as [[documents|e] w1]; simpl; [|done].
  by destruct (ranking state documents).
Qed.

End Ranker.

(** ** Keyword search *)

Lemma contains_unfold (needle hay : string) :
  Str.contains needle hay
  = String.prefix needle hay
    || match hay with
       | EmptyString => false
       | String _ hay' => Str.contains needle hay'
       end.
Proof. by destruct hay. Qed.


(** ** The role lists *)

Lemma valid_roles_of_allowed (v : pyval) : allowed_roles (valid_roles_of v).
Proof.
  unfold allowed_roles, valid_roles_of. destruct v; auto.
  destruct (String.eqb s "both"); auto.
  destruct (String.eqb s "vol") eqn:Hv; simpl.
  { apply String.eqb_eq in Hv as ->. auto. }
  destruct (String.eqb s "fr") eqn:Hf; simpl; auto.
  apply String.eqb_eq in Hf as ->. auto.
Qed.

Lemma valid_roles_of_other (v : pyval) :
  v ≠ PStr "both" → v ≠ PStr "vol" → v ≠ PStr "fr" → valid_roles_of v = ["vol"].
Proof.
  intros Hb Hv Hf. unfold valid_roles_of. destruct v; try done.
  destruct (String.eqb s "both") eqn:E1; [apply String.eqb_eq in E1; congruence|].
  destruct (String.eqb s "vol") eqn:E2; [apply String.eqb_eq in E2; congruence|].
  destruct (String.eqb s "fr") eqn:E3; [apply String.eqb_eq in E3; congruence|].
  done.
Qed.

(** Splits the classifier along its branches. *)
Ltac classifier_branches :=
  repeat match goal with
         | |- context [if ?b then _ else _] => destruct b
         end.

Section Classifier.
Context {lib : Builtins}.
Variable format_other : pyval → string.

Lemma fallback_classify_allowed (help urgency latitude longitude : string)
      (nearby : list doc) :
  allowed_roles (fallback_classify format_other help urgency latitude longitude nearby).2.
Proof.
  unfold fallback_classify, allowed_roles.
  classifier_branches; destruct nearby; simpl; auto.
Qed.


(** The roles depend on the help text and the urgency only. *)
Lemma fallback_classify_roles_independent (help urgency : string)
      (latitude longitude latitude' longitude' : string) (nearby nearby' : list doc) :
  (fallback_classify format_other help urgency latitude longitude nearby).2
    = (fallback_classify format_other help urgency latitude' longitude' nearby').2.
Proof.
  unfold fallback_classify.
  classifier_branches; destruct nearby, nearby'; simpl; auto.
Qed.

End Classifier.

(** ** The Task Synthesizer *)

Ltac task_lookup :=
  unfold task_common; cbn [list_to_map foldr uncurry];
  repeat (rewrite lookup_insert_ne by done); by rewrite lookup_insert_eq.

Section TaskFields.
Variables (state : EmergencyRequestState) (urgency task_id description : string)
          (roles : list string) (lat lon : spec_float) (is_fallback : bool)
          (ai_reasoning : pyval).

Local Abbreviation built :=
  (task_common state urgency task_id description roles lat lon is_fallback ai_reasoning).

Lemma task_common_task_id : built !! "task_id" = Some (PStr task_id).
Proof. task_lookup. Qed.

Lemma task_common_description : built !! "description" = Some (PStr description).
Proof. task_lookup. Qed.

Lemma task_common_roles : built !! "roles" = Some (PList (PStr <$> roles)).
Proof. task_lookup. Qed.

Lemma task_common_is_fallback : built !! "is_fallback" = Some (PBool is_fallback).
Proof. task_lookup. Qed.

Lemma task_common_urgency_level : built !! "urgency_level" = Some (PStr urgency).
Proof. task_lookup. Qed.

Lemma task_common_status : built !! "status" = Some (PStr "pending").
Proof. task_lookup. Qed.

End TaskFields.

Lemma fallback_ready_inv {lib : Builtins} (state : EmergencyRequestState) :
  fallback_ready state = true →
  ∃ category lat lon,
    emergency_type state = PStr category
    ∧ py_float (PStr (latitude state)) = Ok lat
    ∧ py_float (PStr (longitude state)) = Ok lon.
Proof.
  unfold fallback_ready, py_float. intros H.
  destruct (emergency_type state); try done.
  destruct (float_of_str (latitude state)); try done.
  destruct (float_of_str (longitude state)); try done.
  eauto 10.
Qed.

Lemma fallback_not_ready_inv {lib : Builtins} (state : EmergencyRequestState) :
  fallback_ready state = false →
  (∃ e, py_lower (emergency_type state) = Err e)
  ∨ (∃ e, py_float (PStr (latitude state)) = Err e)
  ∨ (∃ e, py_float (PStr (longitude state)) = Err e).
Proof.
  unfold fallback_ready, py_float, py_lower. intros H.
  destruct (emergency_type state); eauto.
  destruct (float_of_str (latitude state)); eauto.
  destruct (float_of_str (longitude state)); eauto.
  done.
Qed.

Section Synthesizer.
Variable json_loads : string → result pyval.
Variable format_other : pyval → string.
Context {lib : Builtins} {W : Type} (E : env W).

Local Abbreviation synthesize := (generate_emergency_task json_loads format_other).
Local Abbreviation try_block := (generate_primary json_loads format_other).
Local Abbreviation except_block := (generate_fallback format_other).
Local Abbreviation classify := (fallback_classify format_other).

Lemma exec_generate_fallback (state : EmergencyRequestState) (urgency : string)
      (lat lon : spec_float) (w : W) :
  (∃ category, emergency_type state = PStr category) →
  py_float (PStr (latitude state)) = Ok lat →
  py_float (PStr (longitude state)) = Ok lon →
  exec E (except_block state urgency) w =
    Run [Uuid4] (E Uuid4 w).2
        (Ok (with_generated_task state
               (task_common state urgency (E Uuid4 w).1
                  (classify (help state) urgency (latitude state)
                            (longitude state) (nearby_resources state)).1
                  (classify (help state) urgency (latitude state)
                            (longitude state) (nearby_resources state)).2
                  lat lon true
                  (PStr "Intelligent fallback assignment based on context analysis")))).
Proof.
  intros [category Hc] Hlat Hlon. unfold generate_fallback.
  rewrite Hc. simpl.
  destruct (classify _ _ _ _ _) as [description roles]. simpl.
  destruct (E Uuid4 w) as [task_id w1]. simpl.
  rewrite Hlat. simpl. rewrite Hlon. done.
Qed.

Lemma exec_generate_fallback_raises (state : EmergencyRequestState)
      (urgency : string) (w : W) :
  fallback_ready state = false →
  ∃ e, outcome (exec E (except_block state urgency) w) = Err e.
Proof.
  intros H. unfold generate_fallback.
  destruct (fallback_not_ready_inv state H) as [[e He]|Hbad].
  { rewrite He. simpl. eauto. }
  destruct (py_lower (emergency_type state)); simpl; [|eauto].
  destruct (classify _ _ _ _ _) as [description roles]. simpl.
  destruct (E Uuid4 w) as [task_id w1]. simpl.
  destruct Hbad as [[e He]|[e He]].
  - rewrite He. simpl. eauto.
  - destruct (py_float (PStr (latitude state))); simpl; [|eauto].
    rewrite He. simpl. eauto.
Qed.

Lemma exec_generate_primary_ok (state s : EmergencyRequestState) (w : W) :
  outcome (exec E (try_block state (normalize_urgency (urgency_type state))) w) = Ok s →
  ∃ answer description task_id lat lon reasoning utilization,
    model_answered json_loads format_other E w state answer
    ∧ py_strip (dict_get_default answer "description" (PStr "")) = Ok description
    ∧ Str.is_empty description = false
    ∧ py_float (PStr (latitude state)) = Ok lat
    ∧ py_float (PStr (longitude state)) = Ok lon
    ∧ s = with_generated_task state
            (<["resource_utilization" := utilization]>
               (task_common state (normalize_urgency (urgency_type state)) task_id
                  description
                  (valid_roles_of (dict_get_default answer "roles" (PStr "vol")))
                  lat lon false reasoning)).
Proof.
  unfold generate_primary. simpl.
  destruct (E (GeminiInvoke _) w) as [[content|e] w1] eqn:HE; simpl; [|done].
  destruct (py_strip content) as [text|] eqn:Htext; simpl; [|done].
  destruct (json_loads (strip_code_fence text)) as [ai_data|] eqn:Hjson; simpl; [|done].
  destruct ai_data as [| | | | | |answer]; try done.
  unfold py_get_default. simpl.
  destruct (py_strip (dict_get_default answer "description" (PStr "")))
    as [description|] eqn:Hdesc; simpl; [|done].
  destruct (Str.is_empty description) eqn:Hempty; simpl; [done|].
  destruct (E Uuid4 w1) as [task_id w2]. simpl.
  destruct (py_float (PStr (latitude state))) as [lat|] eqn:Hlat; simpl; [|done].
  destruct (py_float (PStr (longitude state))) as [lon|] eqn:Hlon; simpl; [|done].
  intros [= <-].
  eexists answer, description, task_id, lat, lon, _, _.
  repeat split; try done. unfold model_answered. eauto 10.
Qed.

Lemma exec_generate_emergency_task (state : EmergencyRequestState) (w : W) :
  let urgency := normalize_urgency (urgency_type state) in
  let primary := exec E (try_block state urgency) w in
  exec E (synthesize state) w =
    match outcome primary with
    | Ok s => Run (trace primary) (final primary) (Ok s)
    | Err e =>
        let fallback := exec E (except_block state urgency) (final primary) in
        Run (trace primary ++ trace fallback) (final fallback) (outcome fallback)
    end.
Proof. unfold generate_emergency_task. by rewrite exec_try_except. Qed.

Lemma generate_calls_model (state : EmergencyRequestState) (w : W) :
  ∃ request rest, trace (exec E (synthesize state) w) = GeminiInvoke request :: rest.
Proof.
  unfold generate_emergency_task, generate_primary. simpl.
  destruct (E (GeminiInvoke _) w) as [content w1]. simpl. eauto.
Qed.

(** The run of the stage when the [try] block raised and the [except]
    block can build its task. *)
Lemma fallback_run (state : EmergencyRequestState) (w : W) :
  fallback_ready state = true →
  primary_raised json_loads format_other E w state →
  ∃ task_id lat lon,
    outcome (exec E (synthesize state) w)
    = Ok (with_generated_task state
            (task_common state (normalize_urgency (urgency_type state)) task_id
               (classify (help state) (normalize_urgency (urgency_type state))
                  (latitude state) (longitude state) (nearby_resources state)).1
               (classify (help state) (normalize_urgency (urgency_type state))
                  (latitude state) (longitude state) (nearby_resources state)).2
               lat lon true
               (PStr "Intelligent fallback assignment based on context analysis"))).
Proof.
  intros (category & lat & lon & Hc & Hlat & Hlon)%fallback_ready_inv [e He].
  rewrite exec_generate_emergency_task. cbn zeta. rewrite He.
  erewrite exec_generate_fallback by eauto. simpl. eauto.
Qed.

End Synthesizer.

(** ** The Task Persister *)

Lemma exec_delete_existing {W : Type} (E : env W) (existing : list doc) (w : W) :
  ∃ w', exec E (delete_existing existing) w
        = Run (DeleteDocument <$> deletions existing) w' (Ok tt).
Proof.
  revert w. induction existing as [|task rest IH]; intros w.
  - by exists w.
  - cbn [delete_existing]. rewrite exec_bind. unfold deletions. cbn [List.filter].
    destruct (deletable task).
    + simpl. destruct (E (DeleteDocument (existing_task_id task)) w) as [[[]|e] w1];
        simpl; destruct (IH w1) as [w' ->]; by exists w'.
    + simpl. destruct (IH w) as [w' ->]. by exists w'.
Qed.

Lemma deletable_flag (task : doc) :
  task !! "first_Task" = None ∨ task !! "first_Task" = Some (PBool false) →
  truthy (existing_task_id task) = true →
  deletable task = true.
Proof.
  unfold deletable, dict_get_default. intros [H|H] Hid; by rewrite H, Hid.
Qed.

Lemma deletable_not_first (task : doc) :
  deletable task = true → task !! "first_Task" ≠ Some (PBool true).
Proof.
  unfold deletable, dict_get_default. intros [_ H]%andb_prop Hflag.
  by rewrite Hflag in H.
Qed.

Lemma deletions_elem (existing : list doc) (id : pyval) :
  id ∈ deletions existing ↔
  ∃ task, task ∈ existing ∧ deletable task = true ∧ existing_task_id task = id.
Proof.
  unfold deletions. rewrite list_elem_of_fmap. split.
  - intros (task & -> & Hin). apply list_elem_of_In, filter_In in Hin as [Hin Hd].
    exists task. by rewrite list_elem_of_In.
  - intros (task & Hin & Hd & <-). exists task. split; [done|].
    apply list_elem_of_In, filter_In. by rewrite <- list_elem_of_In.
Qed.

(** * The claims *)

Section SynthesizerClaims.
Context {lib : Builtins}.
Variable json_loads : string → result pyval.
Variable format_other : pyval → string.

Local Abbreviation synthesize := (generate_emergency_task json_loads format_other).
Local Abbreviation try_block := (generate_primary json_loads format_other).
Local Abbreviation classify := (fallback_classify format_other).
Local Abbreviation raised := (primary_raised json_loads format_other).

(** C1 (as amended).  For every state whose category is a str and whose
    coordinate strings convert to floats, and for every environment, the
    Task Synthesizer returns a state that holds a generated task; when the
    [try] block raised, that task comes from the fallback classifier. *)
Theorem task_synthesizer_returns_task {W : Type} (E : env W) (w : W)
        (state : EmergencyRequestState) :
  fallback_ready state = true →
  ∃ task task_id description roles is_fallback,
    outcome (exec E (synthesize state) w) = Ok (with_generated_task state task)
    ∧ task !! "task_id" = Some (PStr task_id)
    ∧ task !! "description" = Some (PStr description)
    ∧ task !! "roles" = Some (PList (PStr <$> roles))
    ∧ task !! "status" = Some (PStr "pending")
    ∧ task !! "is_fallback" = Some (PBool is_fallback)
    ∧ (raised E w state → is_fallback = true).
Proof.
  intros Hready.
  destruct (outcome (exec E (try_block state
              (normalize_urgency (urgency_type state))) w)) as [s|e] eqn:Hprimary.
  - rewrite exec_generate_emergency_task. cbn zeta. rewrite Hprimary. simpl.
    destruct (exec_generate_primary_ok _ _ _ _ _ _ Hprimary)
      as (answer & description & task_id & lat & lon & reasoning & utilization
          & _ & _ & _ & _ & _ & Hs).
    rewrite Hs. eexists _, task_id, description, _, false.
    split; [reflexivity|].
    rewrite !lookup_insert_ne by done.
    rewrite task_common_task_id, task_common_description, task_common_roles,
      task_common_status, task_common_is_fallback.
    repeat split. unfold primary_raised. rewrite Hprimary. by intros [? ?].
  - destruct (fallback_run json_loads format_other E state w Hready)
      as (task_id & lat & lon & ->); [by exists e|].
    eexists _, task_id, _, _, true. split; [reflexivity|].
    rewrite task_common_task_id, task_common_description, task_common_roles,
      task_common_status, task_common_is_fallback.
    by repeat split.
Qed.

(** C2 (as amended).  Whenever the Task Synthesizer returns, the task's
    roles are [vol], [fr] or [vol, fr]; on the primary path they follow the
    model's answer: "both" gives [vol, fr], "vol" and "fr" are kept,
    anything else or nothing gives [vol].  The stage fails to return, and
    then there is no task and there are no roles, only when its [except]
    block cannot build a task: the category is no str or a coordinate string
    does not convert. *)
Theorem task_roles_valid {W : Type} (E : env W) (w : W)
        (state : EmergencyRequestState) :
  match outcome (exec E (synthesize state) w) with
  | Ok s =>
      ∃ roles,
        generated_task s !! "roles" = Some (PList (PStr <$> roles))
        ∧ allowed_roles roles
        ∧ (generated_task s !! "is_fallback" = Some (PBool false) →
           ∃ answer,
             model_answered json_loads format_other E w state answer
             ∧ (answer !! "roles" = Some (PStr "both") → roles = ["vol"; "fr"])
             ∧ (answer !! "roles" = Some (PStr "vol") → roles = ["vol"])
             ∧ (answer !! "roles" = Some (PStr "fr") → roles = ["fr"])
             ∧ (answer !! "roles" = None → roles = ["vol"])
             ∧ (∀ v, answer !! "roles" = Some v →
                     v ≠ PStr "both" → v ≠ PStr "vol" → v ≠ PStr "fr" →
                     roles = ["vol"]))
  | Err _ => fallback_ready state = false
  end.
Proof.
  rewrite exec_generate_emergency_task. cbn zeta.
  destruct (outcome (exec E (try_block state
              (normalize_urgency (urgency_type state))) w)) as [s|e] eqn:Hprimary.
  - simpl.
    destruct (exec_generate_primary_ok _ _ _ _ _ _ Hprimary)
      as (answer & description & task_id & lat & lon & reasoning & utilization
          & Hanswer & _ & _ & _ & _ & ->).
    eexists. simpl. rewrite lookup_insert_ne by done.
    split; [apply task_common_roles|]. split; [apply valid_roles_of_allowed|].
    intros _. exists answer. split; [done|].
    unfold dict_get_default.
    repeat split; try (by intros ->).
    intros v -> ???. by apply valid_roles_of_other.
  - cbn [outcome]. destruct (fallback_ready state) eqn:Hready.
    + destruct (fallback_ready_inv state Hready) as (category & lat & lon & Hc & Hlat & Hlon).
      erewrite exec_generate_fallback by eauto.
      cbn [outcome trace final generated_task with_generated_task].
      eexists. split; [apply task_common_roles|].
      split; [apply fallback_classify_allowed|].
      by rewrite task_common_is_fallback.
    + destruct (exec_generate_fallback_raises format_other E state
                  (normalize_urgency (urgency_type state))
                  (final (exec E (try_block state
                     (normalize_urgency (urgency_type state))) w)) Hready) as [e' ->].
      done.
Qed.

(** C3.  Past the test for inappropriate keywords, that is when the
    lowercased help text holds none of them, the fallback classifier
    follows this order on the lowercased help text,
    with "moderate" read as "medium": a mass-casualty keyword together with a
    medical keyword or urgency "high" gives [vol, fr]; otherwise a medical
    keyword or urgency "high" gives [fr]; otherwise a food or water keyword
    gives [vol] and the delivery description; otherwise [vol] and the
    generic description.  Each description names the coordinates, and the
    closest resource when there is one.  A run whose [try] block raised and
    whose [except] block can build its task returns a task with these roles
    and this description, marked [is_fallback]. *)
Theorem fallback_priority_order (text label : string) :
  Str.any_in inappropriate_keywords (str_lower text) = false →
  let urgency := normalize_urgency label in
  let needs_food := Str.any_in food_keywords (str_lower text) in
  let needs_medical := Str.any_in medical_keywords (str_lower text) in
  let mass_casualty := Str.any_in mass_keywords (str_lower text) in
  let roles :=
    if mass_casualty && (needs_medical || String.eqb urgency "high") then ["vol"; "fr"]
    else if needs_medical || String.eqb urgency "high" then ["fr"]
    else if needs_food then ["vol"]
    else ["vol"] in
  let description := λ latitude longitude : string,
    if mass_casualty && (needs_medical || String.eqb urgency "high") then
      "Coordinate emergency response for multiple people needing "
        +:+ text +:+ " at location " +:+ location latitude longitude +:+ "."
    else if needs_medical || String.eqb urgency "high" then
      "Provide immediate medical assistance to person needing "
        +:+ text +:+ " at location " +:+ location latitude longitude +:+ "."
    else if needs_food then
      "Deliver food and water supplies to person at location "
        +:+ location latitude longitude +:+ "."
    else
      "Assist person needing " +:+ text +:+ " at location "
        +:+ location latitude longitude +:+ "." in
  let hinted := λ (described : string) (nearby : list doc),
    match nearby with
    | [] => described
    | closest_resource :: _ =>
        described +:+ " Coordinate with "
          +:+ py_format format_other
                (dict_get_default closest_resource "name" (PStr "nearby resource"))
          +:+ " for assistance."
    end in
  (∀ latitude longitude nearby,
     classify text urgency latitude longitude nearby
     = (hinted (description latitude longitude) nearby, roles))
  ∧ ∀ (W : Type) (E : env W) (w : W) (state : EmergencyRequestState),
      help state = text → urgency_type state = label →
      fallback_ready state = true → raised E w state →
      ∃ s,
        outcome (exec E (synthesize state) w) = Ok s
        ∧ generated_task s !! "roles" = Some (PList (PStr <$> roles))
        ∧ generated_task s !! "is_fallback" = Some (PBool true)
        ∧ generated_task s !! "urgency_level" = Some (PStr urgency)
        ∧ generated_task s !! "description"
          = Some (PStr (hinted (description (latitude state) (longitude state))
                               (nearby_resources state))).
Proof.
  intros Hlegit. cbn zeta. split.
  - intros latitude longitude nearby. unfold fallback_classify. rewrite Hlegit.
    classifier_branches; destruct nearby; reflexivity.
  - intros W E w state <- <- Hready Hraised.
    destruct (fallback_run json_loads format_other E state w Hready Hraised)
      as (task_id & lat & lon & ->).
    eexists. split; [reflexivity|]. cbn [generated_task with_generated_task].
    rewrite task_common_roles, task_common_is_fallback, task_common_description,
      task_common_urgency_level.
    unfold fallback_classify. rewrite Hlegit.
    classifier_branches; destruct (nearby_resources state); done.
Qed.


(** C9 (as amended).  Two runs of the fallback path on states with the same
    help text, urgency label and ranked resources give tasks with the same
    roles, both marked [is_fallback]; their descriptions are the same when
    the coordinate strings are the same too. *)
Theorem fallback_deterministic {W1 W2 : Type} (E1 : env W1) (E2 : env W2)
        (w1 : W1) (w2 : W2) (state1 state2 : EmergencyRequestState) :
  help state1 = help state2 →
  urgency_type state1 = urgency_type state2 →
  nearby_resources state1 = nearby_resources state2 →
  fallback_ready state1 = true → fallback_ready state2 = true →
  raised E1 w1 state1 → raised E2 w2 state2 →
  ∃ s1 s2 roles description1 description2,
    outcome (exec E1 (synthesize state1) w1) = Ok s1
    ∧ outcome (exec E2 (synthesize state2) w2) = Ok s2
    ∧ generated_task s1 !! "roles" = Some (PList (PStr <$> roles))
    ∧ generated_task s2 !! "roles" = Some (PList (PStr <$> roles))
    ∧ generated_task s1 !! "is_fallback" = Some (PBool true)
    ∧ generated_task s2 !! "is_fallback" = Some (PBool true)
    ∧ generated_task s1 !! "description" = Some (PStr description1)
    ∧ generated_task s2 !! "description" = Some (PStr description2)
    ∧ (latitude state1 = latitude state2 → longitude state1 = longitude state2 →
       description1 = description2).
Proof.
  intros Hhelp Hurgency Hnearby Hready1 Hready2 Hraised1 Hraised2.
  destruct (fallback_run json_loads format_other E1 state1 w1 Hready1 Hraised1)
    as (id1 & lat1 & lon1 & ->).
  destruct (fallback_run json_loads format_other E2 state2 w2 Hready2 Hraised2)
    as (id2 & lat2 & lon2 & ->).
  eexists _, _, _, _, _. split; [reflexivity|]. split; [reflexivity|].
  cbn [generated_task with_generated_task].
  rewrite !task_common_roles, !task_common_is_fallback, !task_common_description.
  rewrite Hhelp, Hurgency, Hnearby.
  split; [reflexivity|].
  split; [by rewrite (fallback_classify_roles_independent format_other _ _
                        (latitude state2) (longitude state2)
                        (latitude state1) (longitude state1)
                        (nearby_resources state2) (nearby_resources state2))|].
  repeat split. by intros -> ->.
Qed.

End SynthesizerClaims.

(** The examples run the stages on ASCII requests, with the stand-ins for
    the built-in functions. *)
Section SynthesizerExamples.
#[local] Existing Instance ascii_builtins.

(** C1, witness: the model answers with text that is no JSON, and the
    fallback classifier builds the task. *)
Lemma task_synthesizer_returns_task_witness :
  ∃ task task_id description roles is_fallback,
    outcome (exec (scripted (answering (PStr "Sorry, I cannot help with that.")))
               (sample_generate
                  (sample_request "Need food and water" "moderate" "12.0" "77.0")) tt)
      = Ok (with_generated_task
              (sample_request "Need food and water" "moderate" "12.0" "77.0") task)
    ∧ task !! "task_id" = Some (PStr task_id)
    ∧ task !! "description" = Some (PStr description)
    ∧ task !! "roles" = Some (PList (PStr <$> roles))
    ∧ task !! "status" = Some (PStr "pending")
    ∧ task !! "is_fallback" = Some (PBool is_fallback)
    ∧ (primary_raised sample_json_loads sample_format
         (scripted (answering (PStr "Sorry, I cannot help with that."))) tt
         (sample_request "Need food and water" "moderate" "12.0" "77.0")
       → is_fallback = true).
Proof.
  apply (task_synthesizer_returns_task (lib := ascii_builtins) sample_json_loads sample_format
           (scripted (answering (PStr "Sorry, I cannot help with that."))) tt
           (sample_request "Need food and water" "moderate" "12.0" "77.0")).
  reflexivity.
Defined.

(** C1, counterexample: with latitude "abc" the stage raises ValueError,
    whether the model is unavailable or answers well, and the pipeline
    hands that state to the stage; with a category that is no str it raises
    AttributeError. *)
Lemma unparseable_coordinate_escapes :
  outcome (exec (scripted (listing []))
             (sample_generate
                (sample_request "Need food and water" "moderate" "abc" "77.0")) tt)
    = Err (Exn "ValueError" "could not convert string to float: 'abc'")
  ∧ outcome (exec (scripted (answering (PStr sample_answer_text)))
               (sample_generate
                  (sample_request "Need food and water" "moderate" "abc" "77.0")) tt)
    = Err (Exn "ValueError" "could not convert string to float: 'abc'")
  ∧ outcome (exec (scripted (listing []))
               (process_emergency_request sample_json_loads sample_format
                  "d1" "u1" "Need food and water" "moderate" "abc" "77.0") tt)
    = Err (Exn "ValueError" "could not convert string to float: 'abc'")
  ∧ outcome (exec (scripted (listing []))
               (sample_generate
                  (with_emergency_type
                     (sample_request "Need food and water" "moderate" "12.0" "77.0")
                     PNone)) tt)
    = Err (Exn "AttributeError" "'NoneType' object has no attribute 'lower'").
Proof. repeat split; vm_compute; reflexivity. Qed.

(** C2, witness: the model answers "both" in a fenced JSON object. *)
Lemma task_roles_valid_witness :
  ∃ s roles,
    outcome (exec (scripted (answering (PStr sample_answer_text)))
               (sample_generate
                  (sample_request "Need food and water" "moderate" "12.0" "77.0")) tt)
      = Ok s
    ∧ generated_task s !! "roles" = Some (PList (PStr <$> roles))
    ∧ allowed_roles roles
    ∧ generated_task s !! "is_fallback" = Some (PBool false)
    ∧ roles = ["vol"; "fr"].
Proof.
  pose proof (task_roles_valid (lib := ascii_builtins) sample_json_loads sample_format
                (scripted (answering (PStr sample_answer_text))) tt
                (sample_request "Need food and water" "moderate" "12.0" "77.0")) as H.
  fold sample_generate in H.
  destruct (outcome (exec _ (sample_generate _) tt)) as [s|e] eqn:Hrun;
    [|vm_compute in Hrun; discriminate].
  destruct H as (roles & Hroles & Hallowed & Hprimary).
  exists s, roles. split; [reflexivity|]. split; [exact Hroles|]. split; [exact Hallowed|].
  vm_compute in Hrun. injection Hrun as <-.
  split; [vm_compute; reflexivity|].
  destruct (Hprimary ltac:(vm_compute; reflexivity)) as (answer & (content & text & w1 & Hsaid & Htext & Hjson) & Hboth & _).
  apply Hboth.
  vm_compute in Hsaid. injection Hsaid as <- <-.
  vm_compute in Htext. injection Htext as <-.
  vm_compute in Hjson. injection Hjson as <-.
  vm_compute. reflexivity.
Defined.

(** C2, counterexample: the store finds the disaster, yet with latitude
    "abc" the pipeline raises ValueError after the model request and writes
    nothing: no state is returned, so there is no task and there are no
    roles. *)
Lemma resolvable_disaster_without_roles :
  (∃ s1,
     outcome (exec (scripted (listing []))
                (fetch_disaster_type
                   (sample_request "Need food and water" "moderate" "abc" "77.0")) tt)
     = Ok s1)
  ∧ exec (scripted (listing []))
         (process_emergency_request sample_json_loads sample_format
            "d1" "u1" "Need food and water" "moderate" "abc" "77.0") tt
    = Run [GetDisasterDocument "d1"; ListResourcesForDisaster "d1";
           GeminiInvoke
             (model_request sample_format
                (sample_request "Need food and water" "moderate" "abc" "77.0") "medium");
           Uuid4]
          tt (Err (Exn "ValueError" "could not convert string to float: 'abc'")).
Proof.
  split; [eexists; vm_compute; reflexivity|]. vm_compute. reflexivity.
Qed.

(** C3, witness: the example of the specification. *)
Lemma fallback_priority_order_witness :
  ∃ s,
    outcome (exec (scripted (listing []))
               (sample_generate
                  (sample_request "Need food and water" "moderate" "12.0" "77.0")) tt)
      = Ok s
    ∧ generated_task s !! "roles" = Some (PList [PStr "vol"])
    ∧ generated_task s !! "is_fallback" = Some (PBool true)
    ∧ generated_task s !! "urgency_level" = Some (PStr "medium")
    ∧ generated_task s !! "description"
      = Some (PStr "Deliver food and water supplies to person at location (12.0, 77.0).").
Proof.
  apply (proj2 (fallback_priority_order (lib := ascii_builtins)
                  sample_json_loads sample_format
                  "Need food and water" "moderate" eq_refl)
               unit (scripted (listing [])) tt
               (sample_request "Need food and water" "moderate" "12.0" "77.0")).
  - reflexivity.
  - reflexivity.
  - reflexivity.
  - exists unavailable. reflexivity.
Defined.


(** C9, witness: one run finds the model unavailable, the other gets an
    answer that is no JSON; the coordinates differ. *)
Lemma fallback_deterministic_witness :
  ∃ s1 s2 roles description1 description2,
    outcome (exec (scripted (listing []))
               (sample_generate (sample_request "Need food" "low" "12.0" "77.0")) tt) = Ok s1
    ∧ outcome (exec (scripted (answering (PStr "Sorry, I cannot help with that.")))
                 (sample_generate (sample_request "Need food" "low" "13.0" "77.0")) tt) = Ok s2
    ∧ generated_task s1 !! "roles" = Some (PList (PStr <$> roles))
    ∧ generated_task s2 !! "roles" = Some (PList (PStr <$> roles))
    ∧ generated_task s1 !! "is_fallback" = Some (PBool true)
    ∧ generated_task s2 !! "is_fallback" = Some (PBool true)
    ∧ generated_task s1 !! "description" = Some (PStr description1)
    ∧ generated_task s2 !! "description" = Some (PStr description2)
    ∧ (latitude (sample_request "Need food" "low" "12.0" "77.0")
         = latitude (sample_request "Need food" "low" "13.0" "77.0") →
       longitude (sample_request "Need food" "low" "12.0" "77.0")
         = longitude (sample_request "Need food" "low" "13.0" "77.0") →
       description1 = description2).
Proof.
  apply (fallback_deterministic (lib := ascii_builtins) sample_json_loads sample_format
           (scripted (listing []))
           (scripted (answering (PStr "Sorry, I cannot help with that."))) tt tt
           (sample_request "Need food" "low" "12.0" "77.0")
           (sample_request "Need food" "low" "13.0" "77.0")); try reflexivity.
  - exists unavailable. reflexivity.
  - eexists. vm_compute. reflexivity.
Defined.

(** C9, counterexample: the same help text, urgency and resources at two
    latitudes give two descriptions. *)
Lemma coordinates_change_description :
  help (sample_request "Need food" "low" "12.0" "77.0")
    = help (sample_request "Need food" "low" "13.0" "77.0")
  ∧ urgency_type (sample_request "Need food" "low" "12.0" "77.0")
    = urgency_type (sample_request "Need food" "low" "13.0" "77.0")
  ∧ nearby_resources (sample_request "Need food" "low" "12.0" "77.0")
    = nearby_resources (sample_request "Need food" "low" "13.0" "77.0")
  ∧ ∃ s1 s2,
      outcome (exec (scripted (listing []))
                 (sample_generate (sample_request "Need food" "low" "12.0" "77.0")) tt) = Ok s1
      ∧ outcome (exec (scripted (listing []))
                   (sample_generate (sample_request "Need food" "low" "13.0" "77.0")) tt) = Ok s2
      ∧ generated_task s1 !! "is_fallback" = Some (PBool true)
      ∧ generated_task s2 !! "is_fallback" = Some (PBool true)
      ∧ generated_task s1 !! "description"
        = Some (PStr "Deliver food and water supplies to person at location (12.0, 77.0).")
      ∧ generated_task s2 !! "description"
        = Some (PStr "Deliver food and water supplies to person at location (13.0, 77.0).")
      ∧ generated_task s1 !! "description" ≠ generated_task s2 !! "description".
Proof.
  repeat (split; [reflexivity|]).
  eexists _, _. split; [evaluate; reflexivity|]. split; [evaluate; reflexivity|].
  repeat split; try (vm_compute; reflexivity).
  vm_compute. discriminate.
Qed.

End SynthesizerExamples.

(** C4 (as amended).  When the store lists [documents] and none of the
    distances computed for them is NaN, the Resource Ranker returns at most
    5 entries, sorted by non-decreasing distance; each entry is built from a
    listed document that has both its latitude and its longitude, with that
    document's distance attached, and no entry is built from a document that
    lacks either. *)
Theorem ranked_resources_sorted_capped {lib : Builtins} {W : Type} (E : env W) (w w1 : W)
        (state : EmergencyRequestState) (documents : list doc) :
  E (ListResourcesForDisaster (disaster_id state)) w = (Ok documents, w1) →
  (∀ d, d ∈ documents → resource_distance state d ≠ Ok S754_nan) →
  ∃ ranked,
    exec E (fetch_nearby_resources state) w
      = Run [ListResourcesForDisaster (disaster_id state)] w1
            (Ok (with_nearby_resources state ranked))
    ∧ (length ranked ≤ 5)%nat
    ∧ StronglySorted distance_le ranked
    ∧ (∀ r, r ∈ ranked →
         ∃ d dist id,
           d ∈ documents
           ∧ is_Some (d !! "latitude") ∧ is_Some (d !! "longitude")
           ∧ resource_distance state d = Ok dist
           ∧ r = resource_data d dist id)
    ∧ (∀ d dist id,
         d !! "latitude" = None ∨ d !! "longitude" = None →
         resource_data d dist id ∉ ranked).
Proof.
  intros HE Hnan. rewrite exec_fetch_nearby_resources, HE. simpl.
  eexists. split; [reflexivity|].
  unfold ranking.
  destruct (py_float (PStr (latitude state))) as [ulat|] eqn:Hulat; simpl;
    [|by repeat split; [lia|constructor|intros r ?%elem_of_nil|intros ??? _ ?%elem_of_nil]].
  destruct (py_float (PStr (longitude state))) as [ulon|] eqn:Hulon; simpl;
    [|by repeat split; [lia|constructor|intros r ?%elem_of_nil|intros ??? _ ?%elem_of_nil]].
  destruct (collect_resources ulat ulon documents) as [nearby|] eqn:Hcollect; simpl;
    [|by repeat split; [lia|constructor|intros r ?%elem_of_nil|intros ??? _ ?%elem_of_nil]].
  apply collect_resources_entries in Hcollect.
  assert (∀ r, r ∈ take 5 (sort_by_distance nearby) →
            ∃ d dist id, d ∈ documents
              ∧ is_Some (d !! "latitude") ∧ is_Some (d !! "longitude")
              ∧ resource_distance state d = Ok dist
              ∧ r = resource_data d dist id) as Hfrom.
  { intros r Hr. apply subseteq_take in Hr. rewrite sort_by_distance_perm in Hr.
    eapply Forall_forall in Hcollect; [|exact Hr].
    destruct Hcollect as (d & la & lo & dist & id & Hin & Hc & Hla & Hlo & Hd & ->).
    exists d, dist, id. apply has_coordinates_present in Hc as [? ?].
    repeat split; try done.
    unfold resource_distance. rewrite Hulat, Hulon. simpl. rewrite Hla, Hlo. done. }
  split; [|split; [|split]].
  - rewrite length_take. lia.
  - apply StronglySorted_take, sort_by_distance_sorted.
    apply Forall_forall. intros r Hr.
    eapply Forall_forall in Hcollect; [|exact Hr].
    destruct Hcollect as (d & la & lo & dist & id & Hin & Hc & Hla & Hlo & Hd & ->).
    unfold no_nan_key. rewrite distance_key_resource_data.
    destruct dist; try done. destruct (Hnan d Hin).
    unfold resource_distance. rewrite Hulat, Hulon. simpl. rewrite Hla, Hlo. done.
  - exact Hfrom.
  - intros d dist id Hmissing Hr.
    destruct (Hfrom _ Hr) as (d' & dist' & id' & _ & [la Hla] & [lo Hlo] & _ & Heq).
    pose proof (resource_data_latitude d dist id) as H1.
    pose proof (resource_data_longitude d dist id) as H2.
    rewrite Heq, resource_data_latitude, Hla in H1.
    rewrite Heq, resource_data_longitude, Hlo in H2.
    destruct Hmissing as [Hm|Hm]; congruence.
Qed.

Section RankerExamples.
#[local] Existing Instance ascii_builtins.

(** C4, witness: eight listed resources around (12.0, 77.0), two of which
    lack a coordinate. *)
Lemma ranked_resources_sorted_capped_witness :
  ∃ ranked,
    exec (scripted (listing sample_listing))
         (fetch_nearby_resources (sample_request "Need water" "low" "12.0" "77.0")) tt
      = Run [ListResourcesForDisaster "d1"] tt
            (Ok (with_nearby_resources (sample_request "Need water" "low" "12.0" "77.0") ranked))
    ∧ (length ranked ≤ 5)%nat
    ∧ StronglySorted distance_le ranked
    ∧ (∀ r, r ∈ ranked →
         ∃ d dist id,
           d ∈ sample_listing
           ∧ is_Some (d !! "latitude") ∧ is_Some (d !! "longitude")
           ∧ resource_distance (sample_request "Need water" "low" "12.0" "77.0") d = Ok dist
           ∧ r = resource_data d dist id)
    ∧ (∀ d dist id,
         d !! "latitude" = None ∨ d !! "longitude" = None →
         resource_data d dist id ∉ ranked).
Proof.
  apply (ranked_resources_sorted_capped (lib := ascii_builtins)
           (scripted (listing sample_listing)) tt tt
           (sample_request "Need water" "low" "12.0" "77.0") sample_listing).
  - reflexivity.
  - intros d Hin. unfold sample_listing in Hin.
    repeat (apply elem_of_cons in Hin as [->|Hin]; [vm_compute; discriminate|]).
    by apply elem_of_nil in Hin.
Defined.

(** C4, counterexample: a resource with latitude "nan" gets a NaN distance.
    No distance in 2.0, NaN, 1.0 is [<] the one before it, so the sort
    leaves the three entries in that order, 2.0 ahead of 1.0. *)
Lemma nan_distance_breaks_order :
  ∃ s,
    outcome (exec (scripted (listing nan_listing))
                  (fetch_nearby_resources (sample_request "Need water" "low" "0" "0")) tt)
      = Ok s
    ∧ distance_key <$> nearby_resources s = [Float64.of_Z 2; S754_nan; Float64.of_Z 1]
    ∧ Float64.leb (Float64.of_Z 2) (Float64.of_Z 1) = false
    ∧ ¬ StronglySorted distance_le (nearby_resources s).
Proof.
  eexists. split; [evaluate; reflexivity|].
  split; [vm_compute; reflexivity|]. split; [vm_compute; reflexivity|].
  intros Hs. inversion Hs as [|x l _ Hx]; subst.
  inversion Hx as [|y l' Hy _]; subst.
  vm_compute in Hy. discriminate.
Qed.

End RankerExamples.

(** C5.  The Task Persister lists the tasks of the (user, disaster) pair,
    asks the store to delete every listed task that has an identifier and
    whose [first_Task] flag is false or absent, never one whose flag is
    true, and only then writes the new task.  Whatever the listing, the
    deletes and the write answer or raise, it returns its state unchanged. *)
Theorem task_persister_replaces_tasks {W : Type} (E : env W) (w : W)
        (state : EmergencyRequestState) :
  ∃ w' deleted,
    exec E (save_task_to_db state) w
      = Run (ListTasksByUserAndDisaster (user_id state) (disaster_id state)
               :: (DeleteDocument <$> deleted)
               ++ [SaveTaskDocument (generated_task state)])
            w' (Ok state)
    ∧ (∀ e w1,
         E (ListTasksByUserAndDisaster (user_id state) (disaster_id state)) w
           = (Err e, w1) → deleted = [])
    ∧ ∀ existing w1,
        E (ListTasksByUserAndDisaster (user_id state) (disaster_id state)) w
          = (Ok existing, w1) →
        deleted = deletions existing
        ∧ (∀ task, task ∈ existing →
             task !! "first_Task" = None ∨ task !! "first_Task" = Some (PBool false) →
             truthy (existing_task_id task) = true →
             existing_task_id task ∈ deleted)
        ∧ (∀ id, id ∈ deleted →
             ∃ task, task ∈ existing ∧ existing_task_id task = id
                     ∧ task !! "first_Task" ≠ Some (PBool true))
        ∧ (∀ task, task ∈ existing →
             task !! "first_Task" = Some (PBool true) →
             (∀ other, other ∈ existing →
                       existing_task_id other = existing_task_id task → other = task) →
             existing_task_id task ∉ deleted).
Proof.
  unfold save_task_to_db. rewrite exec_bind, exec_try_except, exec_bind. simpl.
  destruct (E (ListTasksByUserAndDisaster _ _) w) as [[existing|e] w1]; simpl.
  - destruct (exec_delete_existing E existing w1) as [w2 ->]. simpl.
    destruct (E (SaveTaskDocument _) w2) as [[[]|e] w3]; simpl;
      (exists w3, (deletions existing); split; [done|]; split; [done|];
       intros ? ? [= <- <-]; split; [done|]; split; [|split]).
    all: try (intros task Hin Hflag Huniq (other & Hother & Hd & Hid)%deletions_elem;
              rewrite (Huniq other Hother Hid) in Hd;
              by apply deletable_not_first in Hd).
    all: try (intros task Hin Hflag Hid; apply deletions_elem; exists task;
              split; [done|]; split; [by apply deletable_flag|done]).
    all: intros id (task & Hin & Hd & <-)%deletions_elem; exists task;
      split; [done|]; split; [done|by apply deletable_not_first].
  - destruct (E (SaveTaskDocument _) w1) as [[[]|e'] w3]; simpl;
      (exists w3, []; split; [done|]; split; [done|]; by intros ? ? [=]).
Qed.
(** C5, witness: a store with one first task and two others, in which
    deleting "t2" fails and the final write fails. *)
Lemma task_persister_replaces_tasks_witness :
  ∃ w' deleted,
    exec (scripted flaky_store)
         (save_task_to_db (sample_request "Need water" "low" "12.0" "77.0")) tt
      = Run (ListTasksByUserAndDisaster "u1" "d1"
               :: (DeleteDocument <$> deleted) ++ [SaveTaskDocument ∅])
            w' (Ok (sample_request "Need water" "low" "12.0" "77.0"))
    ∧ deleted = [PStr "t2"; PStr "t3"].
Proof.
  destruct (task_persister_replaces_tasks (scripted flaky_store) tt
              (sample_request "Need water" "low" "12.0" "77.0"))
    as (w' & deleted & Hrun & _ & Hlisted).
  exists w', deleted. split; [exact Hrun|].
  destruct (Hlisted
              [task_doc "t1" (Some true); task_doc "t2" (Some false); task_doc "t3" None]
              tt eq_refl) as [Hdeleted _].
  rewrite Hdeleted. vm_compute. reflexivity.
Defined.

Section PipelineClaims.
Variable json_loads : string → result pyval.
Variable format_other : pyval → string.
Context {lib : Builtins} {W : Type} (E : env W).

(** C6.  When the disaster document cannot be fetched (the store raises) or
    does not exist (the store has none), the Context Resolver raises a
    ValueError that says so, and the pipeline stops there: no later stage
    makes a call. *)
Theorem disaster_context_fatal (w w1 : W) (state : EmergencyRequestState)
        (answer : result (option doc)) :
  E (GetDisasterDocument (disaster_id state)) w = (answer, w1) →
  answer = Ok None ∨ (∃ e, answer = Err e) →
  ∃ cause,
    exec E (fetch_disaster_type state) w
      = Run [GetDisasterDocument (disaster_id state)] w1
            (Err (Exn "ValueError" ("Disaster data not found: " +:+ cause)))
    ∧ exec E (create_emergency_request_graph json_loads format_other state) w
      = Run [GetDisasterDocument (disaster_id state)] w1
            (Err (Exn "ValueError" ("Disaster data not found: " +:+ cause))).
Proof.
  intros HE Hanswer.
  assert (∃ cause, exec E (fetch_disaster_type state) w
            = Run [GetDisasterDocument (disaster_id state)] w1
                  (Err (Exn "ValueError" ("Disaster data not found: " +:+ cause))))
    as [cause Hstage].
  { unfold fetch_disaster_type. simpl. rewrite HE.
    destruct Hanswer as [->|[e ->]]; simpl; eauto. }
  exists cause. split; [done|].
  unfold create_emergency_request_graph. by rewrite exec_bind, Hstage.
Qed.

(** C8.  For every state and every environment the Resource Ranker returns
    a state: when anything in its [try] block raises, that state holds the
    empty list of nearby resources; and the run goes on to the Task
    Synthesizer, whose call to the model follows the listing. *)
Theorem resource_ranker_never_fatal (w : W) (state : EmergencyRequestState) :
  ∃ ranked,
    exec E (fetch_nearby_resources state) w
      = Run [ListResourcesForDisaster (disaster_id state)]
            (E (ListResourcesForDisaster (disaster_id state)) w).2
            (Ok (with_nearby_resources state ranked))
    ∧ (∀ e, outcome (exec E (rank_resources state) w) = Err e → ranked = [])
    ∧ ∃ request rest,
        trace (exec E (s2 ← fetch_nearby_resources state;
                       s3 ← generate_emergency_task json_loads format_other s2;
                       s4 ← save_task_to_db s3;
                       save_user_request s4) w)
          = ListResourcesForDisaster (disaster_id state) :: GeminiInvoke request :: rest.
Proof.
  eexists. split; [apply exec_fetch_nearby_resources|]. split.
  - intros e. rewrite exec_rank_resources. simpl.
    destruct (E _ w) as [[documents|e'] w1]; simpl; [|done].
    by destruct (ranking state documents).
  - rewrite exec_bind, exec_fetch_nearby_resources. cbn [outcome trace final].
    rewrite exec_bind.
    edestruct (generate_calls_model json_loads format_other E) as (request & rest & ->).
    destruct (outcome _); cbn [trace app]; eauto.
Qed.

(** C10.  When the store lists a document that has both coordinate fields
    but one of them cannot be converted to a float, the whole ranking is
    discarded: the Resource Ranker returns the empty list, whatever other
    documents were listed. *)
Theorem malformed_coordinate_discards_all (w w1 : W)
        (state : EmergencyRequestState) (documents : list doc) (d : doc) :
  E (ListResourcesForDisaster (disaster_id state)) w = (Ok documents, w1) →
  d ∈ documents →
  has_coordinates d = true →
  (∃ e, py_float (dict_get d "latitude") = Err e)
  ∨ (∃ e, py_float (dict_get d "longitude") = Err e) →
  exec E (fetch_nearby_resources state) w
    = Run [ListResourcesForDisaster (disaster_id state)] w1
          (Ok (with_nearby_resources state [])).
Proof.
  intros HE Hin Hc Hbad. rewrite exec_fetch_nearby_resources, HE. simpl.
  unfold ranking.
  destruct (py_float (PStr (latitude state))) as [ulat|]; simpl; [|done].
  destruct (py_float (PStr (longitude state))) as [ulon|]; simpl; [|done].
  destruct (collect_resources_malformed ulat ulon documents d Hin Hc Hbad) as [e ->].
  done.
Qed.

End PipelineClaims.

Section PipelineExamples.
#[local] Existing Instance ascii_builtins.

(** C6, witness: the store has no such disaster. *)
Lemma disaster_context_fatal_witness :
  ∃ cause,
    exec (scripted (no_disaster (Ok None)))
         (fetch_disaster_type (sample_request "Need water" "low" "12.0" "77.0")) tt
      = Run [GetDisasterDocument "d1"] tt
            (Err (Exn "ValueError" ("Disaster data not found: " +:+ cause)))
    ∧ exec (scripted (no_disaster (Ok None)))
           (create_emergency_request_graph sample_json_loads sample_format
              (sample_request "Need water" "low" "12.0" "77.0")) tt
      = Run [GetDisasterDocument "d1"] tt
            (Err (Exn "ValueError" ("Disaster data not found: " +:+ cause))).
Proof.
  apply (disaster_context_fatal (lib := ascii_builtins) sample_json_loads sample_format
           (scripted (no_disaster (Ok None))) tt tt
           (sample_request "Need water" "low" "12.0" "77.0") (Ok None)).
  - reflexivity.
  - by left.
Defined.

(** C10, witness: "Shelter A" has valid coordinates, "Depot B" has latitude
    "north"; nothing is returned, though "Shelter A" alone would be. *)
Lemma malformed_coordinate_discards_all_witness :
  exec (scripted (listing malformed_listing))
       (fetch_nearby_resources (sample_request "Need water" "low" "12.0" "77.0")) tt
    = Run [ListResourcesForDisaster "d1"] tt
          (Ok (with_nearby_resources (sample_request "Need water" "low" "12.0" "77.0") []))
  ∧ length (nearby_resources
              (default (sample_request "Need water" "low" "12.0" "77.0")
                 match outcome
                         (exec (scripted (listing (take 1 malformed_listing)))
                               (fetch_nearby_resources
                                  (sample_request "Need water" "low" "12.0" "77.0")) tt)
                 with
                 | Ok s => Some s
                 | Err _ => None
                 end)) = 1%nat.
Proof.
  split; [|vm_compute; reflexivity].
  apply (malformed_coordinate_discards_all (lib := ascii_builtins)
           (scripted (listing malformed_listing)) tt tt
           (sample_request "Need water" "low" "12.0" "77.0") malformed_listing
           (resource_doc "b" "Depot B" "north" "77.1")).
  - reflexivity.
  - unfold malformed_listing. apply elem_of_cons. right. apply elem_of_cons. by left.
  - reflexivity.
  - left. eexists. vm_compute. reflexivity.
Defined.

End PipelineExamples.

(** * Further properties

    Properties of the stages and of the pipeline beyond the specification's
    claims, read off the source. *)

(** ** Runs of the stages *)

Section StageRuns.
Context {lib : Builtins} {W : Type} (E : env W).


Lemma exec_fetch_disaster_type_found (state : EmergencyRequestState) (w w1 : W) (d : doc) :
  E (GetDisasterDocument (disaster_id state)) w = (Ok (Some d), w1) →
  exec E (fetch_disaster_type state) w
    = Run [GetDisasterDocument (disaster_id state)] w1
          (Ok (with_emergency_type state
                 (dict_get_default d "emergency_type" (PStr "general emergency")))).
Proof. intros HE. unfold fetch_disaster_type. simpl. by rewrite HE. Qed.

Lemma exec_fetch_disaster_type_cases (state : EmergencyRequestState) (w : W) :
  (∃ d,
     (E (GetDisasterDocument (disaster_id state)) w).1 = Ok (Some d)
     ∧ exec E (fetch_disaster_type state) w
       = Run [GetDisasterDocument (disaster_id state)]
             (E (GetDisasterDocument (disaster_id state)) w).2
             (Ok (with_emergency_type state
                    (dict_get_default d "emergency_type" (PStr "general emergency")))))
  ∨ (∃ cause,
       exec E (fetch_disaster_type state) w
       = Run [GetDisasterDocument (disaster_id state)]
             (E (GetDisasterDocument (disaster_id state)) w).2
             (Err (Exn "ValueError" ("Disaster data not found: " +:+ cause)))).
Proof.
  unfold fetch_disaster_type. simpl.
  destruct (E (GetDisasterDocument (disaster_id state)) w) as [[[d|]|e] w1]; simpl; eauto.
Qed.

(** The calls of the Task Persister: the listing, the deletes, the write. *)
Lemma exec_save_task_to_db (state : EmergencyRequestState) (w : W) :
  ∃ w' deleted,
    exec E (save_task_to_db state) w
    = Run (ListTasksByUserAndDisaster (user_id state) (disaster_id state)
             :: (DeleteDocument <$> deleted)
             ++ [SaveTaskDocument (generated_task state)])
          w' (Ok state)
    ∧ match (E (ListTasksByUserAndDisaster (user_id state) (disaster_id state)) w).1 with
      | Ok existing => deleted = deletions existing
      | Err _ => deleted = []
      end.
Proof.
  unfold save_task_to_db. rewrite exec_bind, exec_try_except, exec_bind. simpl.
  destruct (E (ListTasksByUserAndDisaster _ _) w) as [[existing|e] w1]; simpl.
  - destruct (exec_delete_existing E existing w1) as [w2 ->]. simpl.
    destruct (E (SaveTaskDocument _) w2) as [[[]|e] w3]; simpl; eauto.
  - destruct (E (SaveTaskDocument _) w1) as [[[]|e'] w3]; simpl; by exists w3, [].
Qed.

Lemma exec_save_user_request (state : EmergencyRequestState) (w : W)
      (task_id roles : pyval) :
  generated_task state !! "task_id" = Some task_id →
  generated_task state !! "roles" = Some roles →
  ∃ w' data,
    exec E (save_user_request state) w
      = Run [DeleteUserRequestDocument (user_id state);
             SaveUserRequestDocument (user_id state) data]
            w' (Ok (with_user_request_data state data))
    ∧ data !! "task_id" = Some task_id
    ∧ data !! "assigned_roles" = Some roles
    ∧ data !! "userId" = Some (PStr (user_id state))
    ∧ data !! "disaster_id" = Some (PStr (disaster_id state))
    ∧ data !! "help" = Some (PStr (help state))
    ∧ data !! "urgency_type" = Some (PStr (urgency_type state))
    ∧ data !! "latitude" = Some (PStr (latitude state))
    ∧ data !! "longitude" = Some (PStr (longitude state))
    ∧ data !! "emergency_type" = Some (emergency_type state)
    ∧ data !! "status" = Some (PStr "submitted")
    ∧ data !! "feedback" = Some PNone
    ∧ data !! "ai_reasoning"
      = Some (default (PStr "No reasoning provided") (generated_task state !! "ai_reasoning")).
Proof.
  intros Hid Hroles. unfold save_user_request, dict_subscript.
  rewrite Hid, Hroles. simpl.
  destruct (E (DeleteUserRequestDocument (user_id state)) w) as [[[]|e] w1]; simpl;
    destruct (E (SaveUserRequestDocument _ _) w1) as [[[]|e'] w2]; simpl;
    (eexists _, _; split; [reflexivity|];
     repeat split;
     repeat (rewrite lookup_insert_ne by done); by rewrite lookup_insert_eq).
Qed.

End StageRuns.

(** ** The ranking loop, document by document *)

Lemma collect_resources_cons {lib : Builtins}
      (user_lat user_lon : spec_float) (d : doc) (rest : list doc) :
  collect_resources user_lat user_lon (d :: rest)
  = if has_coordinates d
    then r ← resource_entry user_lat user_lon d;
         more ← collect_resources user_lat user_lon rest;
         Ok (r :: more)
    else collect_resources user_lat user_lon rest.
Proof.
  unfold collect_resources; fold collect_resources. unfold resource_entry.
  destruct (has_coordinates d) eqn:Hc; [|done].
  destruct (has_coordinates_present d Hc) as [[lat Hlat] [lon Hlon]].
  assert (dict_subscript d "latitude" = Ok lat) as ->
    by (unfold dict_subscript; by rewrite Hlat).
  assert (dict_subscript d "longitude" = Ok lon) as ->
    by (unfold dict_subscript; by rewrite Hlon).
  unfold dict_get. rewrite Hlat, Hlon. simpl.
  destruct (py_float lat); simpl; [|done].
  destruct (py_float lon); simpl; [|done].
  destruct (euclidean _ _ _ _); simpl; [|done].
  by destruct (dict_subscript d "$id").
Qed.

Lemma collect_resources_Forall2 {lib : Builtins} (user_lat user_lon : spec_float)
      (documents nearby : list doc) :
  collect_resources user_lat user_lon documents = Ok nearby →
  Forall2 (λ d r, resource_entry user_lat user_lon d = Ok r)
          (List.filter has_coordinates documents) nearby.
Proof.
  revert nearby. induction documents as [|d rest IH]; intros nearby.
  - intros [= <-]. constructor.
  - rewrite collect_resources_cons. simpl.
    destruct (has_coordinates d); [|by apply IH].
    destruct (resource_entry user_lat user_lon d) as [r|] eqn:Hr; simpl; [|done].
    destruct (collect_resources user_lat user_lon rest) as [more|]; simpl; [|done].
    intros [= <-]. constructor; [done|by apply IH].
Qed.

Lemma collect_resources_returns {lib : Builtins}
      (user_lat user_lon : spec_float) (documents : list doc) :
  (∀ d, d ∈ documents → has_coordinates d = true →
        ∃ r, resource_entry user_lat user_lon d = Ok r) →
  ∃ nearby, collect_resources user_lat user_lon documents = Ok nearby.
Proof.
  induction documents as [|d rest IH]; intros Hall; [by exists []|].
  rewrite collect_resources_cons.
  destruct IH as [more Hmore].
  { intros d' Hd'. apply Hall. by right. }
  rewrite Hmore.
  destruct (has_coordinates d) eqn:Hc; [|eauto].
  destruct (Hall d) as [r ->]; [by left|done|]. simpl. eauto.
Qed.

Lemma collect_resources_raises {lib : Builtins} (user_lat user_lon : spec_float)
      (documents : list doc) (d : doc) (e : exn) :
  d ∈ documents → has_coordinates d = true →
  resource_entry user_lat user_lon d = Err e →
  ∃ e', collect_resources user_lat user_lon documents = Err e'.
Proof.
  intros Hin Hc Hbad. induction documents as [|d' rest IH]; [by apply elem_of_nil in Hin|].
  rewrite collect_resources_cons.
  apply elem_of_cons in Hin as [<-|Hin].
  - rewrite Hc, Hbad. simpl. eauto.
  - destruct (IH Hin) as [e' ->].
    destruct (has_coordinates d'); [|eauto].
    destruct (resource_entry user_lat user_lon d'); simpl; eauto.
Qed.

Lemma resource_entry_inv {lib : Builtins} (user_lat user_lon : spec_float) (d r : doc) :
  resource_entry user_lat user_lon d = Ok r →
  ∃ resource_lat resource_lon dist id,
    py_float (dict_get d "latitude") = Ok resource_lat
    ∧ py_float (dict_get d "longitude") = Ok resource_lon
    ∧ euclidean user_lat user_lon resource_lat resource_lon = Ok dist
    ∧ d !! "$id" = Some id
    ∧ r = resource_data d dist id.
Proof.
  unfold resource_entry.
  destruct (py_float (dict_get d "latitude")) as [rlat|]; simpl; [|done].
  destruct (py_float (dict_get d "longitude")) as [rlon|]; simpl; [|done].
  destruct (euclidean _ _ _ _) as [dist|] eqn:Hdist; simpl; [|done].
  destruct (dict_subscript d "$id") as [id|] eqn:Hid; simpl; [|done].
  apply dict_subscript_get in Hid as [Hid _].
  intros [= <-]. by eexists _, _, _, _.
Qed.

Lemma elem_of_filter_has_coordinates (d : doc) (documents : list doc) :
  d ∈ List.filter has_coordinates documents ↔ d ∈ documents ∧ has_coordinates d = true.
Proof. rewrite !list_elem_of_In. apply filter_In. Qed.

Lemma StronglySorted_app_elem {A} (R : A → A → Prop) (l1 l2 : list A) (x y : A) :
  StronglySorted R (l1 ++ l2) → x ∈ l1 → y ∈ l2 → R x y.
Proof.
  induction l1 as [|a l1 IH]; simpl; intros Hs Hx Hy; [by apply elem_of_nil in Hx|].
  inversion Hs as [|? ? Hs' Hall]; subst.
  apply elem_of_cons in Hx as [->|Hx]; [|by apply IH].
  eapply Forall_forall in Hall; [exact Hall|]. apply elem_of_app. by right.
Qed.

(** ** Code fences *)

Lemma no_backtick_cons (c : ascii) (s : string) :
  no_backtick (String c s) = true → c ≠ "`"%char ∧ no_backtick s = true.
Proof.
  unfold no_backtick. cbn [Str.contains String.prefix].
  destruct (ascii_dec "`" c) as [<-|Hc]; [by destruct s|].
  cbn [orb]. intros H. split; [congruence|done].
Qed.

Lemma append_nil_r (s : string) : s +:+ "" = s.
Proof.
  induction s as [|c s IH]; [done|].
  change (String c s +:+ "") with (String c (s +:+ "")). by rewrite IH.
Qed.

Lemma prefix_append (p s : string) : String.prefix p (p +:+ s) = true.
Proof.
  induction p as [|a p IH]; [by destruct s|].
  change (String a p +:+ s) with (String a (p +:+ s)). cbn [String.prefix].
  by destruct (ascii_dec a a).
Qed.

Lemma replace_from_skip (old new p s : string) :
  Str.replace_from old new (p +:+ s) (String.length p) = Str.replace_from old new s 0.
Proof.
  induction p as [|a p IH]; [done|].
  change (String a p +:+ s) with (String a (p +:+ s)). by cbn [Str.replace_from String.length].
Qed.

(** [replace] drops an occurrence of [old] at the head of the text. *)
Lemma replace_from_head (c : ascii) (old new s : string) :
  Str.replace_from (String c old) new (String c old +:+ s) 0
  = new +:+ Str.replace_from (String c old) new s 0.
Proof.
  change (String c old +:+ s) with (String c (old +:+ s)).
  cbn [Str.replace_from].
  change (String c (old +:+ s)) with (String c old +:+ s).
  rewrite prefix_append. cbn [String.length Nat.pred]. by rewrite replace_from_skip.
Qed.

(** [replace] copies a text without backticks when [old] starts with one. *)
Lemma replace_from_no_backtick (old new body rest : string) :
  no_backtick body = true →
  Str.replace_from (String "`" old) new (body +:+ rest) 0
  = body +:+ Str.replace_from (String "`" old) new rest 0.
Proof.
  induction body as [|c body IH]; [done|].
  intros [Hc Hbody]%no_backtick_cons.
  change (String c body +:+ rest) with (String c (body +:+ rest)).
  cbn [Str.replace_from String.prefix].
  destruct (ascii_dec "`" c) as [<-|_]; [done|].
  change (String c body +:+ ?t) with (String c (body +:+ t)).
  f_equal. by apply IH.
Qed.

Lemma prefix_before_backtick (p body rest : string) :
  no_backtick p = true →
  String.prefix p body = false →
  String.prefix p (body +:+ String "`" rest) = false.
Proof.
  revert p. induction body as [|c body IH]; intros [|a p] Hp Hprefix; try done.
  - apply no_backtick_cons in Hp as [Ha _].
    change ("" +:+ String "`" rest) with (String "`" rest). cbn [String.prefix].
    by destruct (ascii_dec a "`").
  - apply no_backtick_cons in Hp as [_ Hp].
    change (String c body +:+ ?t) with (String c (body +:+ t)).
    revert Hprefix. cbn [String.prefix].
    destruct (ascii_dec a c); [by apply IH|done].
Qed.

(** ** More fields of the task *)

Section MoreTaskFields.
Variables (state : EmergencyRequestState) (urgency task_id description : string)
          (roles : list string) (lat lon : spec_float) (is_fallback : bool)
          (ai_reasoning : pyval).

Local Abbreviation built :=
  (task_common state urgency task_id description roles lat lon is_fallback ai_reasoning).

Lemma task_common_first_Task : built !! "first_Task" = Some (PBool false).
Proof. task_lookup. Qed.

Lemma task_common_action_done_by : built !! "action_done_by" = Some (PStr "").
Proof. task_lookup. Qed.

Lemma task_common_latitude : built !! "latitude" = Some (PFloat lat).
Proof. task_lookup. Qed.

Lemma task_common_longitude : built !! "longitude" = Some (PFloat lon).
Proof. task_lookup. Qed.

Lemma task_common_help_needed : built !! "help_needed" = Some (PStr (help state)).
Proof. task_lookup. Qed.

Lemma task_common_user_id : built !! "user_id" = Some (PStr (user_id state)).
Proof. task_lookup. Qed.

Lemma task_common_disaster_id : built !! "disaster_id" = Some (PStr (disaster_id state)).
Proof. task_lookup. Qed.

Lemma task_common_emergency_type : built !! "emergency_type" = Some (emergency_type state).
Proof. task_lookup. Qed.

Lemma task_common_ai_reasoning : built !! "ai_reasoning" = Some ai_reasoning.
Proof. task_lookup. Qed.

Lemma task_common_resource_utilization : built !! "resource_utilization" = None.
Proof.
  unfold task_common; cbn [list_to_map foldr uncurry].
  repeat (rewrite lookup_insert_ne by done). apply lookup_empty.
Qed.

End MoreTaskFields.

(** ** Runs of the Task Synthesizer and of the graph *)

Section SynthesizerRuns.
Variable json_loads : string → result pyval.
Variable format_other : pyval → string.
Context {lib : Builtins} {W : Type} (E : env W).

Local Abbreviation synthesize := (generate_emergency_task json_loads format_other).
Local Abbreviation try_block := (generate_primary json_loads format_other).
Local Abbreviation except_block := (generate_fallback format_other).
Local Abbreviation classify := (fallback_classify format_other).
Local Abbreviation request_of := (model_request format_other).
Local Abbreviation graph := (create_emergency_request_graph json_loads format_other).
Local Abbreviation process := (process_emergency_request json_loads format_other).


Lemma trace_generate_primary (state : EmergencyRequestState) (urgency : string) (w : W) :
  ∃ ids,
    trace (exec E (try_block state urgency) w)
    = GeminiInvoke (request_of state urgency) :: ids
    ∧ (ids = [] ∨ ids = [Uuid4]).
Proof.
  unfold generate_primary. simpl.
  destruct (E (GeminiInvoke _) w) as [[content|e] w1]; simpl; [|eauto].
  destruct (py_strip content) as [text|]; simpl; [|eauto].
  destruct (json_loads (strip_code_fence text)) as [ai_data|]; simpl; [|eauto].
  destruct (py_get_default ai_data "description" (PStr "")) as [description|]; simpl; [|eauto].
  destruct (py_strip description) as [stripped|]; simpl; [|eauto].
  destruct (py_get_default ai_data "roles" (PStr "vol")) as [role|]; simpl; [|eauto].
  destruct (Str.is_empty stripped); simpl; [eauto|].
  destruct (E Uuid4 w1) as [task_id w2]. simpl.
  destruct (py_float (PStr (latitude state))); simpl; [|eauto].
  destruct (py_float (PStr (longitude state))); simpl; [|eauto].
  destruct (py_get_default ai_data "reasoning" _); simpl; [|eauto].
  destruct (py_get_default ai_data "resource_utilization" _); simpl; eauto.
Qed.

Lemma trace_generate_fallback (state : EmergencyRequestState) (urgency : string) (w : W) :
  trace (exec E (except_block state urgency) w) = []
  ∨ trace (exec E (except_block state urgency) w) = [Uuid4].
Proof.
  unfold generate_fallback.
  destruct (py_lower (emergency_type state)); simpl; [|eauto].
  destruct (classify _ _ _ _ _) as [description roles]. simpl.
  destruct (E Uuid4 w) as [task_id w1]. simpl.
  destruct (py_float (PStr (latitude state))); simpl; [|eauto].
  destruct (py_float (PStr (longitude state))); simpl; eauto.
Qed.

(** The [try] block on an answer that parses to a JSON object. *)
Lemma exec_generate_primary_answered (state : EmergencyRequestState) (w : W)
      (answer : doc) (description : string) :
  model_answered json_loads format_other E w state answer →
  py_strip (dict_get_default answer "description" (PStr "")) = Ok description →
  let urgency := normalize_urgency (urgency_type state) in
  ∃ w1,
    exec E (try_block state urgency) w
    = if Str.is_empty description
      then Run [GeminiInvoke (request_of state urgency)] w1
               (Err (Exn "ValueError" "Empty description from Gemini"))
      else
        Run [GeminiInvoke (request_of state urgency); Uuid4] (E Uuid4 w1).2
            (lat ← py_float (PStr (latitude state));
             lon ← py_float (PStr (longitude state));
             Ok (with_generated_task state
                   (<["resource_utilization" :=
                        dict_get_default answer "resource_utilization" (PStr "none")]>
                      (task_common state urgency (E Uuid4 w1).1 description
                         (valid_roles_of (dict_get_default answer "roles" (PStr "vol")))
                         lat lon false
                         (dict_get_default answer "reasoning"
                            (PStr "AI-determined role assignment")))))).
Proof.
  intros (content & text & w1 & HE & Htext & Hjson) Hdesc. cbn zeta.
  exists w1. unfold generate_primary. simpl. rewrite HE. simpl.
  rewrite Htext. simpl. rewrite Hjson. simpl.
  unfold py_get_default. simpl. rewrite Hdesc. simpl.
  destruct (Str.is_empty description); simpl; [done|].
  destruct (E Uuid4 w1) as [task_id w2]. simpl.
  destruct (py_float (PStr (latitude state))); simpl; [|done].
  by destruct (py_float (PStr (longitude state))).
Qed.

End SynthesizerRuns.

Section SynthesizerTasks.
Variable json_loads : string → result pyval.
Variable format_other : pyval → string.
Context {lib : Builtins} {W : Type} (E : env W).

Local Abbreviation synthesize := (generate_emergency_task json_loads format_other).
Local Abbreviation try_block := (generate_primary json_loads format_other).
Local Abbreviation except_block := (generate_fallback format_other).
Local Abbreviation classify := (fallback_classify format_other).
Local Abbreviation request_of := (model_request format_other).
Local Abbreviation graph := (create_emergency_request_graph json_loads format_other).
Local Abbreviation process := (process_emergency_request json_loads format_other).


Lemma exec_generate_fallback_ok (state s : EmergencyRequestState) (urgency : string) (w : W) :
  outcome (exec E (except_block state urgency) w) = Ok s →
  ∃ task_id lat lon,
    py_float (PStr (latitude state)) = Ok lat
    ∧ py_float (PStr (longitude state)) = Ok lon
    ∧ s = with_generated_task state
            (task_common state urgency task_id
               (classify (help state) urgency (latitude state) (longitude state)
                         (nearby_resources state)).1
               (classify (help state) urgency (latitude state) (longitude state)
                         (nearby_resources state)).2
               lat lon true
               (PStr "Intelligent fallback assignment based on context analysis")).
Proof.
  unfold generate_fallback.
  destruct (py_lower (emergency_type state)); simpl; [|done].
  destruct (classify _ _ _ _ _) as [description roles]. simpl.
  destruct (E Uuid4 w) as [task_id w1]. simpl.
  destruct (py_float (PStr (latitude state))) as [lat|]; simpl; [|done].
  destruct (py_float (PStr (longitude state))) as [lon|]; simpl; [|done].
  intros [= <-]. eauto 10.
Qed.

(** The task of a state the Task Synthesizer returned. *)
Lemma generated_task_built (state s : EmergencyRequestState) (w : W) :
  outcome (exec E (synthesize state) w) = Ok s →
  ∃ task_id description roles lat lon is_fallback reasoning,
    py_float (PStr (latitude state)) = Ok lat
    ∧ py_float (PStr (longitude state)) = Ok lon
    ∧ allowed_roles roles
    ∧ let common := task_common state (normalize_urgency (urgency_type state)) task_id
                                description roles lat lon is_fallback reasoning in
      (is_fallback = true ∧ s = with_generated_task state common)
      ∨ (is_fallback = false
         ∧ ∃ utilization,
             s = with_generated_task state (<["resource_utilization" := utilization]> common)).
Proof.
  rewrite exec_generate_emergency_task. cbn zeta.
  destruct (outcome (exec E (try_block state _) w)) as [s'|e] eqn:Hprimary; cbn [outcome].
  - intros [= <-].
    destruct (exec_generate_primary_ok _ _ _ _ _ _ Hprimary)
      as (answer & description & task_id & lat & lon & reasoning & utilization
          & _ & _ & _ & Hlat & Hlon & ->).
    eexists task_id, description, _, lat, lon, false, reasoning.
    repeat split; try done; [apply valid_roles_of_allowed|].
    right. eauto.
  - intros Hfallback.
    destruct (exec_generate_fallback_ok _ _ _ _ Hfallback)
      as (task_id & lat & lon & Hlat & Hlon & ->).
    eexists task_id, _, _, lat, lon, true, _.
    repeat split; try done; [apply fallback_classify_allowed|].
    left. eauto.
Qed.

End SynthesizerTasks.

Section SynthesizerTraces.
Variable json_loads : string → result pyval.
Variable format_other : pyval → string.
Context {lib : Builtins} {W : Type} (E : env W).

Local Abbreviation synthesize := (generate_emergency_task json_loads format_other).
Local Abbreviation try_block := (generate_primary json_loads format_other).
Local Abbreviation except_block := (generate_fallback format_other).
Local Abbreviation classify := (fallback_classify format_other).
Local Abbreviation request_of := (model_request format_other).
Local Abbreviation graph := (create_emergency_request_graph json_loads format_other).
Local Abbreviation process := (process_emergency_request json_loads format_other).


(** The [try] block with coordinates that convert: it either returns after
    one identifier, or raises before drawing one. *)
Lemma trace_generate_primary_floats (state : EmergencyRequestState) (urgency : string)
      (w : W) (lat lon : spec_float) :
  py_float (PStr (latitude state)) = Ok lat →
  py_float (PStr (longitude state)) = Ok lon →
  trace (exec E (try_block state urgency) w)
  = GeminiInvoke (request_of state urgency)
      :: match outcome (exec E (try_block state urgency) w) with
         | Ok _ => [Uuid4]
         | Err _ => []
         end.
Proof.
  intros Hlat Hlon. unfold generate_primary. simpl.
  destruct (E (GeminiInvoke _) w) as [[content|e] w1]; simpl; [|done].
  destruct (py_strip content) as [text|]; simpl; [|done].
  destruct (json_loads (strip_code_fence text)) as [ai_data|]; simpl; [|done].
  destruct ai_data as [| | | | | |answer]; try done.
  unfold py_get_default. simpl.
  destruct (py_strip _) as [stripped|]; simpl; [|done].
  destruct (Str.is_empty stripped); simpl; [done|].
  destruct (E Uuid4 w1) as [task_id w2]. simpl.
  rewrite Hlat. simpl. by rewrite Hlon.
Qed.

Lemma trace_generate_fallback_ok (state s : EmergencyRequestState) (urgency : string)
      (w : W) :
  outcome (exec E (except_block state urgency) w) = Ok s →
  trace (exec E (except_block state urgency) w) = [Uuid4].
Proof.
  unfold generate_fallback.
  destruct (py_lower (emergency_type state)); simpl; [|done].
  destruct (classify _ _ _ _ _) as [description roles]. simpl.
  destruct (E Uuid4 w) as [task_id w1]. simpl.
  destruct (py_float (PStr (latitude state))); simpl; [|done].
  by destruct (py_float (PStr (longitude state))).
Qed.

(** A run of the Task Synthesizer that returns drew exactly one identifier. *)
Lemma trace_generate_emergency_task_ok (state s : EmergencyRequestState) (w : W) :
  outcome (exec E (synthesize state) w) = Ok s →
  trace (exec E (synthesize state) w)
  = [GeminiInvoke (request_of state (normalize_urgency (urgency_type state))); Uuid4].
Proof.
  intros Hok.
  destruct (generated_task_built json_loads format_other E state s w Hok)
    as (_ & _ & _ & lat & lon & _ & _ & Hlat & Hlon & _).
  revert Hok. rewrite exec_generate_emergency_task. cbn zeta.
  rewrite (trace_generate_primary_floats state _ w lat lon Hlat Hlon).
  destruct (outcome (exec E (try_block state _) w)) as [s'|e]; cbn [outcome trace]; [done|].
  intros Hok. by rewrite (trace_generate_fallback_ok _ _ _ _ Hok).
Qed.

(** The Task Synthesizer returns whenever its [except] block can build a task. *)
Lemma generate_emergency_task_returns (state : EmergencyRequestState) (w : W) :
  fallback_ready state = true →
  ∃ s, outcome (exec E (synthesize state) w) = Ok s.
Proof.
  intros Hready.
  destruct (outcome (exec E (generate_primary json_loads format_other state
                               (normalize_urgency (urgency_type state))) w))
    as [s|e] eqn:Hprimary.
  - exists s. rewrite exec_generate_emergency_task. cbn zeta. by rewrite Hprimary.
  - destruct (fallback_run json_loads format_other E state w Hready) as (? & ? & ? & ->);
      [by exists e|eauto].
Qed.

End SynthesizerTraces.

Section GraphRuns.
Variable json_loads : string → result pyval.
Variable format_other : pyval → string.
Context {lib : Builtins} {W : Type} (E : env W).

Local Abbreviation synthesize := (generate_emergency_task json_loads format_other).
Local Abbreviation try_block := (generate_primary json_loads format_other).
Local Abbreviation except_block := (generate_fallback format_other).
Local Abbreviation classify := (fallback_classify format_other).
Local Abbreviation request_of := (model_request format_other).
Local Abbreviation graph := (create_emergency_request_graph json_loads format_other).
Local Abbreviation process := (process_emergency_request json_loads format_other).


Lemma ranking_length (state : EmergencyRequestState) (documents : result (list doc)) :
  (length match (documents ← documents; ranking state documents) with
          | Ok ranked => ranked
          | Err _ => []
          end ≤ 5)%nat.
Proof.
  destruct documents as [documents|e]; simpl; [|lia].
  unfold ranking.
  destruct (py_float (PStr (latitude state))); simpl; [|lia].
  destruct (py_float (PStr (longitude state))); simpl; [|lia].
  destruct (collect_resources _ _ documents); simpl; [|lia].
  rewrite length_take. lia.
Qed.

(** The run of the graph, stage by stage. *)
Lemma exec_create_emergency_request_graph (state : EmergencyRequestState) (w : W) :
  (∃ cause,
     exec E (graph state) w
     = Run [GetDisasterDocument (disaster_id state)]
           (E (GetDisasterDocument (disaster_id state)) w).2
           (Err (Exn "ValueError" ("Disaster data not found: " +:+ cause))))
  ∨ (∃ d ranked w2,
       (E (GetDisasterDocument (disaster_id state)) w).1 = Ok (Some d)
       ∧ (length ranked ≤ 5)%nat
       ∧ let s2 := with_nearby_resources
                     (with_emergency_type state
                        (dict_get_default d "emergency_type" (PStr "general emergency")))
                     ranked in
         let generated := exec E (synthesize s2) w2 in
         match outcome generated with
         | Err e =>
             exec E (graph state) w
             = Run (GetDisasterDocument (disaster_id state)
                      :: ListResourcesForDisaster (disaster_id state)
                      :: trace generated)
                   (final generated) (Err e)
         | Ok s3 =>
             ∃ deleted data w',
               exec E (graph state) w
               = Run (GetDisasterDocument (disaster_id state)
                        :: ListResourcesForDisaster (disaster_id state)
                        :: trace generated
                        ++ ListTasksByUserAndDisaster (user_id state) (disaster_id state)
                        :: (DeleteDocument <$> deleted)
                        ++ [SaveTaskDocument (generated_task s3);
                            DeleteUserRequestDocument (user_id state);
                            SaveUserRequestDocument (user_id state) data])
                     w' (Ok (with_user_request_data s3 data))
               ∧ data !! "task_id" = generated_task s3 !! "task_id"
               ∧ data !! "assigned_roles" = generated_task s3 !! "roles"
               ∧ data !! "ai_reasoning" = generated_task s3 !! "ai_reasoning"
               ∧ data !! "emergency_type" = generated_task s3 !! "emergency_type"
               ∧ data !! "userId" = generated_task s3 !! "user_id"
               ∧ data !! "disaster_id" = generated_task s3 !! "disaster_id"
               ∧ data !! "help" = generated_task s3 !! "help_needed"
               ∧ data !! "urgency_type" = Some (PStr (urgency_type state))
               ∧ data !! "latitude" = Some (PStr (latitude state))
               ∧ data !! "longitude" = Some (PStr (longitude state))
               ∧ data !! "status" = Some (PStr "submitted")
               ∧ data !! "feedback" = Some PNone
         end).
Proof.
  unfold create_emergency_request_graph. rewrite exec_bind.
  destruct (exec_fetch_disaster_type_cases E state w) as [(d & Hd & ->)|[cause ->]];
    cbn [outcome trace final]; [|left; eauto].
  right. rewrite exec_bind, exec_fetch_nearby_resources. cbn [outcome trace final].
  set (s1 := with_emergency_type state
               (dict_get_default d "emergency_type" (PStr "general emergency"))).
  set (w1 := (E (GetDisasterDocument (disaster_id state)) w).2).
  exists d,
    (match (documents ← (E (ListResourcesForDisaster (disaster_id s1)) w1).1;
            ranking s1 documents) with
     | Ok ranked => ranked
     | Err _ => []
     end),
    (E (ListResourcesForDisaster (disaster_id s1)) w1).2.
  split; [done|]. split; [apply ranking_length|]. cbn zeta.
  rewrite exec_bind.
  destruct (outcome (exec E (synthesize _) _)) as [s3|e] eqn:Hgen; cbn [outcome trace final];
    [|done].
  rewrite exec_bind.
  match goal with
  | |- context [exec E (save_task_to_db s3) ?w3] =>
      destruct (exec_save_task_to_db E s3 w3) as (w4 & deleted & -> & _)
  end.
  cbn [outcome trace final].
  destruct (generated_task_built json_loads format_other E _ s3 _ Hgen)
    as (task_id & description & roles & lat & lon & is_fallback & reasoning
        & _ & _ & _ & Hbuilt).
  cbn zeta in Hbuilt.
  assert (generated_task s3 !! "task_id" = Some (PStr task_id)
          ∧ generated_task s3 !! "roles" = Some (PList (PStr <$> roles))
          ∧ generated_task s3 !! "ai_reasoning" = Some reasoning
          ∧ generated_task s3 !! "emergency_type"
            = Some (dict_get_default d "emergency_type" (PStr "general emergency"))
          ∧ generated_task s3 !! "user_id" = Some (PStr (user_id state))
          ∧ generated_task s3 !! "disaster_id" = Some (PStr (disaster_id state))
          ∧ generated_task s3 !! "help_needed" = Some (PStr (help state))
          ∧ user_id s3 = user_id state ∧ disaster_id s3 = disaster_id state
          ∧ help s3 = help state ∧ urgency_type s3 = urgency_type state
          ∧ latitude s3 = latitude state ∧ longitude s3 = longitude state
          ∧ emergency_type s3
            = dict_get_default d "emergency_type" (PStr "general emergency"))
    as (Hid & Hroles & Hreasoning & Hcategory & Huser & Hdisaster & Hhelp
        & Hu & Hd' & Hh & Hur & Hla & Hlo & Het).
  { destruct Hbuilt as [[_ ->]|(_ & utilization & ->)];
      cbn [generated_task with_generated_task user_id disaster_id help urgency_type
           latitude longitude emergency_type];
      rewrite ?lookup_insert_ne by done;
      rewrite task_common_task_id, task_common_roles, task_common_ai_reasoning,
        task_common_emergency_type, task_common_user_id, task_common_disaster_id,
        task_common_help_needed;
      done. }
  destruct (exec_save_user_request E s3 w4 _ _ Hid Hroles)
    as (w5 & data & -> & Dtask & Droles & Duser & Ddisaster & Dhelp & Durgency & Dlat & Dlon
        & Dcategory & Dstatus & Dfeedback & Dreasoning).
  cbn [outcome trace final].
  exists deleted, data, w5. rewrite Hu, Hd'.
  split.
  { f_equal. cbn [app]. do 2 f_equal. by rewrite <- !app_assoc. }
  rewrite Dtask, Droles, Dreasoning, Dcategory, Duser, Ddisaster, Dhelp, Durgency,
    Dlat, Dlon, Hid, Hroles, Hreasoning, Hcategory, Huser, Hdisaster, Hhelp,
    Hu, Hd', Hh, Hur, Hla, Hlo, Het.
  done.
Qed.

End GraphRuns.

(** ** The Context Resolver *)

Section ResolverProperties.
Context {lib : Builtins} {W : Type} (E : env W).


(** X1.  When the store returns the disaster document, the Context Resolver
    makes that one call and returns the state with the document's
    ["emergency_type"]: the stored value when the key is present (a stored
    null stays null), and "general emergency" only when the key is absent. *)
Theorem disaster_category_resolved (state : EmergencyRequestState) (w w1 : W) (d : doc) :
  E (GetDisasterDocument (disaster_id state)) w = (Ok (Some d), w1) →
  ∃ category,
    exec E (fetch_disaster_type state) w
      = Run [GetDisasterDocument (disaster_id state)] w1
            (Ok (with_emergency_type state category))
    ∧ (∀ v, d !! "emergency_type" = Some v → category = v)
    ∧ (d !! "emergency_type" = None → category = PStr "general emergency").
Proof.
  intros HE. eexists. split; [by apply exec_fetch_disaster_type_found|].
  unfold dict_get_default. split; [by intros v ->|by intros ->].
Qed.

End ResolverProperties.

(** X1, witness: the stored disaster document has no category. *)
Lemma disaster_category_resolved_witness :
  ∃ category,
    exec (scripted (found {["name" := PStr "Monsoon flood"]}))
         (fetch_disaster_type (sample_request "Need water" "low" "12.0" "77.0")) tt
      = Run [GetDisasterDocument "d1"] tt
            (Ok (with_emergency_type (sample_request "Need water" "low" "12.0" "77.0") category))
    ∧ (∀ v, ({["name" := PStr "Monsoon flood"]} : doc) !! "emergency_type" = Some v → category = v)
    ∧ (({["name" := PStr "Monsoon flood"]} : doc) !! "emergency_type" = None
       → category = PStr "general emergency").
Proof.
  apply (disaster_category_resolved (scripted (found {["name" := PStr "Monsoon flood"]}))
           (sample_request "Need water" "low" "12.0" "77.0") tt tt
           {["name" := PStr "Monsoon flood"]}).
  reflexivity.
Defined.

(** ** The Resource Ranker *)

Section RankerProperties.
Context {lib : Builtins} {W : Type} (E : env W).


(** X2.  When the requester's coordinates convert and the loop body
    succeeds on every listed document that has both coordinates, the
    Resource Ranker keeps as many entries as there are such documents, up to
    five, and each entry is the loop body's entry for one of them. *)
Theorem ranker_returns_candidates (state : EmergencyRequestState) (w w1 : W)
        (documents : list doc) (user_lat user_lon : spec_float) :
  E (ListResourcesForDisaster (disaster_id state)) w = (Ok documents, w1) →
  py_float (PStr (latitude state)) = Ok user_lat →
  py_float (PStr (longitude state)) = Ok user_lon →
  (∀ d, d ∈ documents → has_coordinates d = true →
        ∃ r, resource_entry user_lat user_lon d = Ok r) →
  ∃ ranked,
    exec E (fetch_nearby_resources state) w
      = Run [ListResourcesForDisaster (disaster_id state)] w1
            (Ok (with_nearby_resources state ranked))
    ∧ length ranked = (5 `min` length (List.filter has_coordinates documents))%nat
    ∧ ∀ r, r ∈ ranked →
        ∃ d, d ∈ documents ∧ has_coordinates d = true
             ∧ resource_entry user_lat user_lon d = Ok r.
Proof.
  intros HE Hlat Hlon Hall. rewrite exec_fetch_nearby_resources, HE. simpl.
  unfold ranking. rewrite Hlat, Hlon. simpl.
  destruct (collect_resources_returns user_lat user_lon documents Hall) as [nearby Hnearby].
  rewrite Hnearby. simpl. eexists. split; [reflexivity|].
  apply collect_resources_Forall2 in Hnearby.
  split.
  - rewrite length_take, (sort_by_distance_perm nearby).
    by rewrite (Forall2_length _ _ _ Hnearby).
  - intros r Hr. apply subseteq_take in Hr. rewrite sort_by_distance_perm in Hr.
    destruct (proj1 (list_elem_of_lookup _ _) Hr) as [i Hi].
    destruct (Forall2_lookup_r _ _ _ _ _ Hnearby Hi) as (d & Hd & Hentry).
    exists d. apply list_elem_of_lookup_2, elem_of_filter_has_coordinates in Hd as [? ?].
    done.
Qed.

(** X3.  Every entry the Resource Ranker returns is one listed document,
    annotated: its ["resource_id"] is the document's ["$id"], its
    ["distance"] is the float distance computed for the document, and every
    other field is the document's own. *)
Theorem ranked_entries_annotate_documents (state : EmergencyRequestState) (w w1 : W)
        (documents : list doc) :
  E (ListResourcesForDisaster (disaster_id state)) w = (Ok documents, w1) →
  ∃ ranked,
    exec E (fetch_nearby_resources state) w
      = Run [ListResourcesForDisaster (disaster_id state)] w1
            (Ok (with_nearby_resources state ranked))
    ∧ ∀ r, r ∈ ranked →
        ∃ d dist,
          d ∈ documents
          ∧ is_Some (d !! "$id")
          ∧ r !! "resource_id" = d !! "$id"
          ∧ resource_distance state d = Ok dist
          ∧ r !! "distance" = Some (PFloat dist)
          ∧ ∀ key, key ≠ "resource_id" → key ≠ "distance" → r !! key = d !! key.
Proof.
  intros HE. rewrite exec_fetch_nearby_resources, HE. simpl.
  eexists. split; [reflexivity|].
  unfold ranking, resource_distance.
  destruct (py_float (PStr (latitude state))) as [ulat|]; simpl;
    [|by intros r ?%elem_of_nil].
  destruct (py_float (PStr (longitude state))) as [ulon|]; simpl;
    [|by intros r ?%elem_of_nil].
  destruct (collect_resources ulat ulon documents) as [nearby|] eqn:Hnearby; simpl;
    [|by intros r ?%elem_of_nil].
  apply collect_resources_Forall2 in Hnearby.
  intros r Hr. apply subseteq_take in Hr. rewrite sort_by_distance_perm in Hr.
  destruct (proj1 (list_elem_of_lookup _ _) Hr) as [i Hi].
  destruct (Forall2_lookup_r _ _ _ _ _ Hnearby Hi) as (d & Hd & Hentry).
  apply list_elem_of_lookup_2, elem_of_filter_has_coordinates in Hd as [Hd _].
  destruct (resource_entry_inv _ _ _ _ Hentry)
    as (rlat & rlon & dist & id & Hrlat & Hrlon & Hdist & Hid & ->).
  exists d, dist. rewrite Hrlat, Hrlon, Hid. simpl.
  unfold resource_data. repeat split; try done.
  - by rewrite lookup_insert_eq.
  - rewrite lookup_insert_ne by done. by rewrite lookup_insert_eq.
  - intros key ? ?. by rewrite !lookup_insert_ne.
Qed.

(** X4.  When no computed distance is NaN, the entries the Resource Ranker
    keeps are the nearest: a listed document with both coordinates either
    has its entry among those returned, or lies at least as far away as
    every entry returned. *)
Theorem ranker_keeps_nearest (state : EmergencyRequestState) (w w1 : W)
        (documents : list doc) :
  E (ListResourcesForDisaster (disaster_id state)) w = (Ok documents, w1) →
  (∀ d, d ∈ documents → resource_distance state d ≠ Ok S754_nan) →
  ∃ ranked,
    exec E (fetch_nearby_resources state) w
      = Run [ListResourcesForDisaster (disaster_id state)] w1
            (Ok (with_nearby_resources state ranked))
    ∧ ∀ d dist,
        d ∈ documents → has_coordinates d = true →
        resource_distance state d = Ok dist →
        (∃ id, resource_data d dist id ∈ ranked)
        ∨ ∀ r, r ∈ ranked → Float64.leb (distance_key r) dist = true.
Proof.
  intros HE Hnan. rewrite exec_fetch_nearby_resources, HE. simpl.
  eexists. split; [reflexivity|].
  unfold ranking.
  destruct (py_float (PStr (latitude state))) as [ulat|] eqn:Hulat; simpl;
    [|by right; intros r ?%elem_of_nil].
  destruct (py_float (PStr (longitude state))) as [ulon|] eqn:Hulon; simpl;
    [|by right; intros r ?%elem_of_nil].
  destruct (collect_resources ulat ulon documents) as [nearby|] eqn:Hnearby; simpl;
    [|by right; intros r ?%elem_of_nil].
  apply collect_resources_Forall2 in Hnearby.
  assert (Forall no_nan_key nearby) as Hkeys.
  { apply Forall_forall. intros r Hr.
    destruct (proj1 (list_elem_of_lookup _ _) Hr) as [i Hi].
    destruct (Forall2_lookup_r _ _ _ _ _ Hnearby Hi) as (d & Hd & Hentry).
    apply list_elem_of_lookup_2, elem_of_filter_has_coordinates in Hd as [Hd _].
    destruct (resource_entry_inv _ _ _ _ Hentry)
      as (rlat & rlon & dist & id & Hrlat & Hrlon & Hdist & _ & ->).
    unfold no_nan_key. rewrite distance_key_resource_data.
    specialize (Hnan d Hd). unfold resource_distance in Hnan.
    rewrite Hulat, Hulon in Hnan. simpl in Hnan. rewrite Hrlat, Hrlon in Hnan.
    simpl in Hnan. rewrite Hdist in Hnan. by destruct dist. }
  pose proof (sort_by_distance_sorted nearby Hkeys) as Hsorted.
  intros d dist Hd Hc Hdist.
  assert (d ∈ List.filter has_coordinates documents) as Hin
    by by apply elem_of_filter_has_coordinates.
  destruct (proj1 (list_elem_of_lookup _ _) Hin) as [i Hi].
  destruct (Forall2_lookup_l _ _ _ _ _ Hnearby Hi) as (r & Hr & Hentry).
  destruct (resource_entry_inv _ _ _ _ Hentry)
    as (rlat & rlon & dist' & id & Hrlat & Hrlon & Hdist' & _ & ->).
  assert (dist' = dist) as ->.
  { unfold resource_distance in Hdist. rewrite Hulat, Hulon in Hdist. simpl in Hdist.
    rewrite Hrlat, Hrlon in Hdist. simpl in Hdist. congruence. }
  apply list_elem_of_lookup_2 in Hr. rewrite <- (sort_by_distance_perm nearby) in Hr.
  rewrite <- (take_drop 5 (sort_by_distance nearby)) in Hr, Hsorted.
  apply elem_of_app in Hr as [Hr|Hr]; [left; eauto|].
  right. intros r' Hr'.
  pose proof (StronglySorted_app_elem _ _ _ _ _ Hsorted Hr' Hr) as Hle.
  unfold distance_le in Hle. by rewrite distance_key_resource_data in Hle.
Qed.

(** X5.  One bad input empties the whole ranking.  The Resource Ranker
    returns no resource at all when a requester coordinate does not convert,
    or when some listed document with both coordinates has no ["$id"] or no
    computable distance (a coordinate that does not convert, or a squared
    difference out of the float range), however many good documents are
    listed beside it. *)
Theorem ranking_discarded_on_bad_input (state : EmergencyRequestState) (w w1 : W)
        (documents : list doc) :
  E (ListResourcesForDisaster (disaster_id state)) w = (Ok documents, w1) →
  (∃ e, py_float (PStr (latitude state)) = Err e)
  ∨ (∃ e, py_float (PStr (longitude state)) = Err e)
  ∨ (∃ d, d ∈ documents ∧ has_coordinates d = true
          ∧ (d !! "$id" = None ∨ ∃ e, resource_distance state d = Err e)) →
  exec E (fetch_nearby_resources state) w
    = Run [ListResourcesForDisaster (disaster_id state)] w1
          (Ok (with_nearby_resources state [])).
Proof.
  intros HE Hbad. rewrite exec_fetch_nearby_resources, HE. simpl.
  unfold ranking.
  destruct (py_float (PStr (latitude state))) as [ulat|] eqn:Hulat; simpl; [|done].
  destruct (py_float (PStr (longitude state))) as [ulon|] eqn:Hulon; simpl; [|done].
  destruct Hbad as [[e He]|[[e He]|(d & Hd & Hc & Hentry)]]; [done..|].
  assert (∃ e, resource_entry ulat ulon d = Err e) as [e He].
  { unfold resource_entry, resource_distance in *.
    rewrite Hulat, Hulon in Hentry. simpl in Hentry.
    destruct (py_float (dict_get d "latitude")); simpl in *; [|eauto].
    destruct (py_float (dict_get d "longitude")); simpl in *; [|eauto].
    destruct (euclidean _ _ _ _); simpl in *; [|eauto].
    destruct Hentry as [Hid|[e He]]; [|done].
    unfold dict_subscript. rewrite Hid. simpl. eauto. }
  by destruct (collect_resources_raises ulat ulon documents d e Hd Hc He) as [e' ->].
Qed.

End RankerProperties.

Section RankerFurtherExamples.
#[local] Existing Instance ascii_builtins.

(** X2, witness: three listed resources, one without a longitude. *)
Lemma ranker_returns_candidates_witness :
  ∃ ranked,
    exec (scripted (listing short_listing))
         (fetch_nearby_resources (sample_request "Need water" "low" "12.0" "77.0")) tt
      = Run [ListResourcesForDisaster "d1"] tt
            (Ok (with_nearby_resources (sample_request "Need water" "low" "12.0" "77.0")
                   ranked))
    ∧ length ranked = 2%nat
    ∧ ∀ r, r ∈ ranked →
        ∃ d, d ∈ short_listing ∧ has_coordinates d = true
             ∧ resource_entry (Float64.of_Z 12) (Float64.of_Z 77) d = Ok r.
Proof.
  apply (ranker_returns_candidates (lib := ascii_builtins) (scripted (listing short_listing))
           (sample_request "Need water" "low" "12.0" "77.0") tt tt short_listing
           (Float64.of_Z 12) (Float64.of_Z 77)).
  - reflexivity.
  - vm_compute. reflexivity.
  - vm_compute. reflexivity.
  - intros d Hin Hc. unfold short_listing in Hin.
    apply elem_of_cons in Hin as [->|Hin]; [eexists; evaluate; reflexivity|].
    apply elem_of_cons in Hin as [->|Hin]; [vm_compute in Hc; discriminate|].
    apply elem_of_cons in Hin as [->|Hin]; [eexists; evaluate; reflexivity|].
    by apply elem_of_nil in Hin.
Defined.

(** X3, witness: the eight listed resources of the example. *)
Lemma ranked_entries_annotate_documents_witness :
  ∃ ranked,
    exec (scripted (listing sample_listing))
         (fetch_nearby_resources (sample_request "Need water" "low" "12.0" "77.0")) tt
      = Run [ListResourcesForDisaster "d1"] tt
            (Ok (with_nearby_resources (sample_request "Need water" "low" "12.0" "77.0")
                   ranked))
    ∧ ∀ r, r ∈ ranked →
        ∃ d dist,
          d ∈ sample_listing
          ∧ is_Some (d !! "$id")
          ∧ r !! "resource_id" = d !! "$id"
          ∧ resource_distance (sample_request "Need water" "low" "12.0" "77.0") d = Ok dist
          ∧ r !! "distance" = Some (PFloat dist)
          ∧ ∀ key, key ≠ "resource_id" → key ≠ "distance" → r !! key = d !! key.
Proof.
  apply (ranked_entries_annotate_documents (lib := ascii_builtins)
           (scripted (listing sample_listing))
           (sample_request "Need water" "low" "12.0" "77.0") tt tt sample_listing).
  reflexivity.
Defined.

(** X4, witness: the eight listed resources of the example. *)
Lemma ranker_keeps_nearest_witness :
  ∃ ranked,
    exec (scripted (listing sample_listing))
         (fetch_nearby_resources (sample_request "Need water" "low" "12.0" "77.0")) tt
      = Run [ListResourcesForDisaster "d1"] tt
            (Ok (with_nearby_resources (sample_request "Need water" "low" "12.0" "77.0")
                   ranked))
    ∧ ∀ d dist,
        d ∈ sample_listing → has_coordinates d = true →
        resource_distance (sample_request "Need water" "low" "12.0" "77.0") d = Ok dist →
        (∃ id, resource_data d dist id ∈ ranked)
        ∨ ∀ r, r ∈ ranked → Float64.leb (distance_key r) dist = true.
Proof.
  apply (ranker_keeps_nearest (lib := ascii_builtins) (scripted (listing sample_listing))
           (sample_request "Need water" "low" "12.0" "77.0") tt tt sample_listing).
  - reflexivity.
  - intros d Hin. unfold sample_listing in Hin.
    repeat (apply elem_of_cons in Hin as [->|Hin]; [vm_compute; discriminate|]).
    by apply elem_of_nil in Hin.
Defined.

(** X5, witness: a requester at latitude 1e200; the square of the
    difference to latitude 0 is out of the float range. *)
Lemma ranking_discarded_on_bad_input_witness :
  exec (scripted (listing distant_listing))
       (fetch_nearby_resources (sample_request "Need water" "low" "1e200" "0")) tt
    = Run [ListResourcesForDisaster "d1"] tt
          (Ok (with_nearby_resources (sample_request "Need water" "low" "1e200" "0") [])).
Proof.
  apply (ranking_discarded_on_bad_input (lib := ascii_builtins) (scripted (listing distant_listing))
           (sample_request "Need water" "low" "1e200" "0") tt tt distant_listing).
  - reflexivity.
  - right. right. exists (resource_doc "a" "Shelter A" "0" "0").
    split; [by left|]. split; [reflexivity|]. right.
    exists (Exn "OverflowError" "(34, 'Numerical result out of range')").
    vm_compute. reflexivity.
Defined.

End RankerFurtherExamples.

(** ** The Task Synthesizer *)

Section SynthesizerProperties.
Variable json_loads : string → result pyval.
Variable format_other : pyval → string.
Context {lib : Builtins} {W : Type} (E : env W).

Local Abbreviation synthesize := (generate_emergency_task json_loads format_other).
Local Abbreviation try_block := (generate_primary json_loads format_other).
Local Abbreviation except_block := (generate_fallback format_other).
Local Abbreviation classify := (fallback_classify format_other).
Local Abbreviation request_of := (model_request format_other).
Local Abbreviation graph := (create_emergency_request_graph json_loads format_other).
Local Abbreviation process := (process_emergency_request json_loads format_other).


(** X6.  The Task Synthesizer asks the model exactly once, first, with the
    request built from its state and the normalized urgency; it never asks
    again and never calls the store.  Its only other calls are for task
    identifiers: none, one, or two when the [try] block fails after drawing
    one. *)
Theorem synthesizer_asks_model_once (state : EmergencyRequestState) (w : W) :
  ∃ ids,
    trace (exec E (synthesize state) w)
      = GeminiInvoke (request_of state (normalize_urgency (urgency_type state))) :: ids
    ∧ (ids = [] ∨ ids = [Uuid4] ∨ ids = [Uuid4; Uuid4]).
Proof.
  rewrite exec_generate_emergency_task. cbn zeta.
  destruct (trace_generate_primary json_loads format_other E state
              (normalize_urgency (urgency_type state)) w) as (ids & Htrace & Hids).
  destruct (outcome (exec E (try_block state _) w)); cbn [trace].
  - exists ids. split; [done|]. destruct Hids as [->| ->]; auto.
  - rewrite Htrace.
    destruct (trace_generate_fallback format_other E state
                (normalize_urgency (urgency_type state))
                (final (exec E (try_block state
                   (normalize_urgency (urgency_type state))) w))) as [-> | ->];
      destruct Hids as [->| ->]; eexists; (split; [reflexivity|]); auto.
Qed.

(** X8.  When the model's answer parses to a JSON object with a description
    that is not blank, and both coordinate strings convert to floats, the
    Task Synthesizer returns the primary task after the model call and one
    identifier: the description is the model's, stripped; the roles follow
    the model's ["roles"]; the reasoning and the resource note are the
    model's, or their defaults when the object has none. *)
Theorem primary_task_from_answer (state : EmergencyRequestState) (w : W)
        (answer : doc) (description : string) (lat lon : spec_float) :
  model_answered json_loads format_other E w state answer →
  py_strip (dict_get_default answer "description" (PStr "")) = Ok description →
  Str.is_empty description = false →
  py_float (PStr (latitude state)) = Ok lat →
  py_float (PStr (longitude state)) = Ok lon →
  ∃ w' task,
    exec E (synthesize state) w
      = Run [GeminiInvoke (request_of state (normalize_urgency (urgency_type state)));
             Uuid4]
            w' (Ok (with_generated_task state task))
    ∧ task !! "description" = Some (PStr description)
    ∧ task !! "roles"
      = Some (PList (PStr <$> valid_roles_of (dict_get_default answer "roles" (PStr "vol"))))
    ∧ task !! "is_fallback" = Some (PBool false)
    ∧ task !! "ai_reasoning"
      = Some (default (PStr "AI-determined role assignment") (answer !! "reasoning"))
    ∧ task !! "resource_utilization"
      = Some (default (PStr "none") (answer !! "resource_utilization"))
    ∧ task !! "latitude" = Some (PFloat lat)
    ∧ task !! "longitude" = Some (PFloat lon).
Proof.
  intros Hanswer Hdesc Hfull Hlat Hlon.
  rewrite exec_generate_emergency_task. cbn zeta.
  destruct (exec_generate_primary_answered json_loads format_other E state w
              answer description Hanswer Hdesc) as [w1 ->].
  rewrite Hfull, Hlat, Hlon. simpl.
  eexists _, _. split; [reflexivity|].
  rewrite lookup_insert_eq, !lookup_insert_ne by done.
  rewrite task_common_description, task_common_roles, task_common_is_fallback,
    task_common_ai_reasoning, task_common_latitude, task_common_longitude.
  done.
Qed.

(** X9.  When the model's answer parses to a JSON object whose description
    is missing, blank or no str, the answer is discarded: the [try] block
    raises and, when the [except] block can build its task, the stage
    returns the fallback task, with the classifier's roles whatever roles
    the model chose. *)
Theorem unusable_description_falls_back (state : EmergencyRequestState) (w : W)
        (answer : doc) :
  model_answered json_loads format_other E w state answer →
  description_unusable answer = true →
  fallback_ready state = true →
  ∃ s,
    outcome (exec E (synthesize state) w) = Ok s
    ∧ trace (exec E (synthesize state) w)
      = [GeminiInvoke (request_of state (normalize_urgency (urgency_type state))); Uuid4]
    ∧ generated_task s !! "is_fallback" = Some (PBool true)
    ∧ generated_task s !! "roles"
      = Some (PList (PStr <$>
                (classify (help state) (normalize_urgency (urgency_type state))
                          (latitude state) (longitude state) (nearby_resources state)).2)).
Proof.
  intros Hanswer Hunusable Hready.
  assert (∃ e w1, exec E (try_block state (normalize_urgency (urgency_type state))) w
                  = Run [GeminiInvoke (request_of state
                           (normalize_urgency (urgency_type state)))] w1 (Err e))
    as (e & w1 & Hprimary).
  { unfold description_unusable in Hunusable.
    destruct (py_strip (dict_get_default answer "description" (PStr "")))
      as [description|e] eqn:Hdesc.
    - destruct (exec_generate_primary_answered json_loads format_other E state w
                  answer description Hanswer Hdesc) as [w1 ->].
      rewrite Hunusable. eauto.
    - destruct Hanswer as (content & text & w1 & HE & Htext & Hjson).
      exists e, w1. unfold generate_primary. simpl. rewrite HE. simpl.
      rewrite Htext. simpl. rewrite Hjson. simpl.
      unfold py_get_default. simpl. by rewrite Hdesc. }
  destruct (fallback_ready_inv state Hready) as (category & lat & lon & Hc & Hlat & Hlon).
  rewrite exec_generate_emergency_task. cbn zeta. rewrite Hprimary. cbn [outcome final trace].
  erewrite exec_generate_fallback by eauto. cbn [outcome final trace app].
  eexists. split; [reflexivity|]. split; [reflexivity|].
  cbn [generated_task with_generated_task].
  by rewrite task_common_is_fallback, task_common_roles.
Qed.

(** X10.  Every task the Task Synthesizer returns, on either path, is new
    work for the request it came from: pending, unclaimed, not a first task,
    with the request's user, disaster, help text and category, the urgency
    label normalized and both coordinates as floats.  Only a task of the
    primary path has a ["resource_utilization"] entry.  Since its
    [first_Task] flag is false, the Task Persister's test selects a stored
    copy of it for deletion on a later run. *)
Theorem generated_task_shape (state s : EmergencyRequestState) (w : W) :
  outcome (exec E (synthesize state) w) = Ok s →
  ∃ task_id lat lon is_fallback,
    generated_task s !! "task_id" = Some (PStr task_id)
    ∧ generated_task s !! "status" = Some (PStr "pending")
    ∧ generated_task s !! "action_done_by" = Some (PStr "")
    ∧ generated_task s !! "first_Task" = Some (PBool false)
    ∧ generated_task s !! "user_id" = Some (PStr (user_id state))
    ∧ generated_task s !! "disaster_id" = Some (PStr (disaster_id state))
    ∧ generated_task s !! "help_needed" = Some (PStr (help state))
    ∧ generated_task s !! "emergency_type" = Some (emergency_type state)
    ∧ generated_task s !! "urgency_level"
      = Some (PStr (normalize_urgency (urgency_type state)))
    ∧ py_float (PStr (latitude state)) = Ok lat
    ∧ generated_task s !! "latitude" = Some (PFloat lat)
    ∧ py_float (PStr (longitude state)) = Ok lon
    ∧ generated_task s !! "longitude" = Some (PFloat lon)
    ∧ generated_task s !! "is_fallback" = Some (PBool is_fallback)
    ∧ (is_Some (generated_task s !! "resource_utilization") ↔ is_fallback = false)
    ∧ ∀ stored : doc,
        stored !! "first_Task" = generated_task s !! "first_Task" →
        truthy (existing_task_id stored) = true →
        deletable stored = true.
Proof.
  intros Hrun.
  destruct (generated_task_built json_loads format_other E state s w Hrun)
    as (task_id & description & roles & lat & lon & is_fallback & reasoning
        & Hlat & Hlon & _ & [[-> ->]|[-> [utilization ->]]]);
    exists task_id, lat, lon; eexists; cbn [generated_task with_generated_task];
    rewrite ?lookup_insert_eq, ?(lookup_insert_ne _ "resource_utilization") by done;
    rewrite task_common_task_id, task_common_status, task_common_action_done_by,
      task_common_first_Task, task_common_user_id, task_common_disaster_id,
      task_common_help_needed, task_common_emergency_type, task_common_urgency_level,
      task_common_latitude, task_common_longitude, task_common_is_fallback,
      ?task_common_resource_utilization.
  all: repeat split; try done; try (by intros [? ?]); try (by eexists).
  all: intros stored Hflag Hid; apply deletable_flag; [by right|done].
Qed.

End SynthesizerProperties.

(** X7.  Stripping a code fence gives back the text between the fences:
    for a body without backticks, the answer fenced with the "json" marker,
    and the answer fenced without a marker (when the body does not itself
    begin with "json"), are both read as the body with its surrounding
    whitespace removed. *)
Theorem code_fence_round_trip {lib : Builtins} (body : string) :
  no_backtick body = true →
  strip_code_fence ("```json" +:+ body +:+ "```") = str_strip body
  ∧ (Str.startswith body "json" = false →
     strip_code_fence ("```" +:+ body +:+ "```") = str_strip body).
Proof.
  intros Hbody.
  assert (Str.replace (body +:+ "```") "```" "" = body) as Hclose.
  { unfold Str.replace. rewrite replace_from_no_backtick by done.
    change (Str.replace_from "```" "" "```" 0) with EmptyString.
    apply append_nil_r. }
  split.
  - unfold strip_code_fence, Str.startswith. rewrite prefix_append.
    f_equal. unfold Str.replace at 2. rewrite replace_from_head.
    change ("" +:+ ?t) with t. rewrite replace_from_no_backtick by done.
    exact Hclose.
  - intros Hjson. unfold strip_code_fence, Str.startswith.
    change (String.prefix "```json" ("```" +:+ body +:+ "```"))
      with (String.prefix "json" (body +:+ "```")).
    rewrite prefix_before_backtick, prefix_append by done.
    f_equal. unfold Str.replace. rewrite replace_from_head.
    exact Hclose.
Qed.

Section SynthesizerFurtherExamples.
#[local] Existing Instance ascii_builtins.

(** X7, witness: an empty JSON object on a line of its own. *)
Lemma code_fence_round_trip_witness :
  strip_code_fence ("```json" +:+ (nl +:+ "{}" +:+ nl) +:+ "```") = "{}"
  ∧ (Str.startswith (nl +:+ "{}" +:+ nl) "json" = false →
     strip_code_fence ("```" +:+ (nl +:+ "{}" +:+ nl) +:+ "```") = "{}").
Proof.
  apply (code_fence_round_trip (lib := ascii_builtins) (nl +:+ "{}" +:+ nl)). reflexivity.
Defined.

(** X8, witness: the model answers the example request. *)
Lemma primary_task_from_answer_witness :
  ∃ w' task,
    exec (scripted (answering (PStr sample_answer_text)))
         (sample_generate (sample_request "Need food and water" "moderate" "12.0" "77.0")) tt
      = Run [GeminiInvoke
               (model_request sample_format
                  (sample_request "Need food and water" "moderate" "12.0" "77.0")
                  (normalize_urgency "moderate"));
             Uuid4]
            w' (Ok (with_generated_task
                      (sample_request "Need food and water" "moderate" "12.0" "77.0") task))
    ∧ task !! "description" = Some (PStr "Deliver food supplies to person at location")
    ∧ task !! "roles" = Some (PList [PStr "vol"; PStr "fr"])
    ∧ task !! "is_fallback" = Some (PBool false)
    ∧ task !! "ai_reasoning" = Some (PStr "AI-determined role assignment")
    ∧ task !! "resource_utilization" = Some (PStr "none")
    ∧ task !! "latitude" = Some (PFloat (Float64.of_Z 12))
    ∧ task !! "longitude" = Some (PFloat (Float64.of_Z 77)).
Proof.
  apply (primary_task_from_answer (lib := ascii_builtins) sample_json_loads sample_format
           (scripted (answering (PStr sample_answer_text)))
           (sample_request "Need food and water" "moderate" "12.0" "77.0") tt
           sample_answer "Deliver food supplies to person at location"
           (Float64.of_Z 12) (Float64.of_Z 77)).
  - exists (PStr sample_answer_text), (str_strip sample_answer_text), tt.
    repeat split; vm_compute; reflexivity.
  - vm_compute. reflexivity.
  - reflexivity.
  - vm_compute. reflexivity.
  - vm_compute. reflexivity.
Defined.

(** X9, witness: the answer parses to an object with roles "fr" and no
    description. *)
Lemma unusable_description_falls_back_witness :
  ∃ s,
    outcome (exec (scripted (answering (PStr "{}")))
               (generate_emergency_task
                  (always_parses {["roles" := PStr "fr"]}) sample_format
                  (sample_request "Need food and water" "moderate" "12.0" "77.0")) tt)
      = Ok s
    ∧ trace (exec (scripted (answering (PStr "{}")))
               (generate_emergency_task
                  (always_parses {["roles" := PStr "fr"]}) sample_format
                  (sample_request "Need food and water" "moderate" "12.0" "77.0")) tt)
      = [GeminiInvoke
           (model_request sample_format
              (sample_request "Need food and water" "moderate" "12.0" "77.0")
              (normalize_urgency "moderate"));
         Uuid4]
    ∧ generated_task s !! "is_fallback" = Some (PBool true)
    ∧ generated_task s !! "roles" = Some (PList [PStr "vol"]).
Proof.
  apply (unusable_description_falls_back (lib := ascii_builtins)
           (always_parses {["roles" := PStr "fr"]}) sample_format
           (scripted (answering (PStr "{}")))
           (sample_request "Need food and water" "moderate" "12.0" "77.0") tt
           {["roles" := PStr "fr"]}).
  - exists (PStr "{}"), "{}", tt. repeat split.
  - reflexivity.
  - reflexivity.
Defined.

(** X10, witness: the model is unavailable, so the task is the fallback task. *)
Lemma generated_task_shape_witness :
  ∃ s task_id lat lon is_fallback,
    outcome (exec (scripted (listing []))
               (sample_generate
                  (sample_request "Need food and water" "moderate" "12.0" "77.0")) tt)
      = Ok s
    ∧ generated_task s !! "task_id" = Some (PStr task_id)
    ∧ generated_task s !! "status" = Some (PStr "pending")
    ∧ generated_task s !! "first_Task" = Some (PBool false)
    ∧ generated_task s !! "urgency_level" = Some (PStr "medium")
    ∧ generated_task s !! "latitude" = Some (PFloat lat)
    ∧ generated_task s !! "longitude" = Some (PFloat lon)
    ∧ generated_task s !! "is_fallback" = Some (PBool is_fallback).
Proof.
  destruct (outcome (exec (scripted (listing []))
              (sample_generate
                 (sample_request "Need food and water" "moderate" "12.0" "77.0")) tt))
    as [s|e] eqn:Hrun; [|vm_compute in Hrun; discriminate].
  destruct (generated_task_shape (lib := ascii_builtins)
           sample_json_loads sample_format (scripted (listing []))
              (sample_request "Need food and water" "moderate" "12.0" "77.0") s tt Hrun)
    as (task_id & lat & lon & is_fallback & Hid & Hstatus & _ & Hfirst & _ & _ & _ & _
        & Hurgency & _ & Hlat & _ & Hlon & Hfallback & _).
  exists s, task_id, lat, lon, is_fallback. by repeat split.
Defined.

End SynthesizerFurtherExamples.

(** ** The Request Recorder *)

Section RecorderProperties.
Context {lib : Builtins} {W : Type} (E : env W).


(** X11.  Given a generated task that has a ["task_id"] and ["roles"], the
    Request Recorder never raises: it asks the store to delete the user's
    previous record, then to save the new one under the user id, and returns
    the state with that record, whatever the two calls answer.  The record
    copies the task's id and roles, keeps the request's own urgency label,
    and starts as "submitted" with no feedback. *)
Theorem request_recorder_writes_record (state : EmergencyRequestState) (w : W)
        (task_id roles : pyval) :
  generated_task state !! "task_id" = Some task_id →
  generated_task state !! "roles" = Some roles →
  ∃ w' data,
    exec E (save_user_request state) w
      = Run [DeleteUserRequestDocument (user_id state);
             SaveUserRequestDocument (user_id state) data]
            w' (Ok (with_user_request_data state data))
    ∧ data !! "task_id" = Some task_id
    ∧ data !! "assigned_roles" = Some roles
    ∧ data !! "userId" = Some (PStr (user_id state))
    ∧ data !! "disaster_id" = Some (PStr (disaster_id state))
    ∧ data !! "urgency_type" = Some (PStr (urgency_type state))
    ∧ data !! "status" = Some (PStr "submitted")
    ∧ data !! "feedback" = Some PNone
    ∧ data !! "ai_reasoning"
      = Some (default (PStr "No reasoning provided") (generated_task state !! "ai_reasoning")).
Proof.
  intros Hid Hroles. unfold save_user_request, dict_subscript.
  rewrite Hid, Hroles. simpl.
  destruct (E (DeleteUserRequestDocument (user_id state)) w) as [[[]|e] w1]; simpl;
    destruct (E (SaveUserRequestDocument _ _) w1) as [[[]|e'] w2]; simpl;
    (eexists _, _; split; [reflexivity|];
     repeat split;
     repeat (rewrite lookup_insert_ne by done); by rewrite lookup_insert_eq).
Qed.

(** X12.  The Request Recorder reads the task's id and roles before its
    [try] block: when the generated task lacks ["task_id"], or has it but
    lacks ["roles"], the stage raises KeyError and makes no store call. *)
Theorem request_recorder_needs_task (state : EmergencyRequestState) (w : W) (key : string) :
  (key = "task_id" ∧ generated_task state !! "task_id" = None)
  ∨ (key = "roles" ∧ is_Some (generated_task state !! "task_id")
     ∧ generated_task state !! "roles" = None) →
  exec E (save_user_request state) w
    = Run [] w (Err (Exn "KeyError" ("'" +:+ key +:+ "'"))).
Proof.
  unfold save_user_request, dict_subscript.
  intros [[-> Hid]|(-> & [tid Hid] & Hroles)]; rewrite Hid; simpl; [done|].
  by rewrite Hroles.
Qed.

End RecorderProperties.

(** X11, witness: the final write fails. *)
Lemma request_recorder_writes_record_witness :
  ∃ w' data,
    exec (scripted flaky_store)
         (save_user_request
            (with_generated_task (sample_request "Need food and water" "moderate" "12.0" "77.0")
                                 sample_task)) tt
      = Run [DeleteUserRequestDocument "u1"; SaveUserRequestDocument "u1" data]
            w' (Ok (with_user_request_data
                      (with_generated_task
                         (sample_request "Need food and water" "moderate" "12.0" "77.0")
                         sample_task) data))
    ∧ data !! "task_id" = Some (PStr "7c9e6679-7425-40de-944b-e07fc1f90ae7")
    ∧ data !! "assigned_roles" = Some (PList [PStr "vol"])
    ∧ data !! "urgency_type" = Some (PStr "moderate").
Proof.
  destruct (request_recorder_writes_record (scripted flaky_store)
              (with_generated_task
                 (sample_request "Need food and water" "moderate" "12.0" "77.0") sample_task)
              tt (PStr "7c9e6679-7425-40de-944b-e07fc1f90ae7") (PList [PStr "vol"])
              eq_refl eq_refl)
    as (w' & data & Hrun & Hid & Hroles & _ & _ & Hurgency & _).
  exists w', data. repeat split; assumption.
Defined.

(** X12, witness: a state whose generated task is the empty dict. *)
Lemma request_recorder_needs_task_witness :
  exec (scripted flaky_store)
       (save_user_request (sample_request "Need water" "low" "12.0" "77.0")) tt
    = Run [] tt (Err (Exn "KeyError" "'task_id'")).
Proof.
  apply (request_recorder_needs_task (scripted flaky_store)
           (sample_request "Need water" "low" "12.0" "77.0") tt "task_id").
  left. split; reflexivity.
Defined.

(** ** The pipeline *)

Section PipelineProperties.
Variable json_loads : string → result pyval.
Variable format_other : pyval → string.
Context {lib : Builtins} {W : Type} (E : env W).

Local Abbreviation synthesize := (generate_emergency_task json_loads format_other).
Local Abbreviation try_block := (generate_primary json_loads format_other).
Local Abbreviation except_block := (generate_fallback format_other).
Local Abbreviation classify := (fallback_classify format_other).
Local Abbreviation request_of := (model_request format_other).
Local Abbreviation graph := (create_emergency_request_graph json_loads format_other).
Local Abbreviation process := (process_emergency_request json_loads format_other).


(** X13.  A run of the pipeline that returns made its calls in the order of
    the five stages: the disaster lookup, the resource listing, one model
    request (about the category and the resources the returned state
    carries), one task identifier, the listing of the user's stored tasks,
    the deletes, the write of the generated task, and last the delete and
    the write of the user's request record.  What is written is what is
    returned. *)
Theorem pipeline_call_order (state s : EmergencyRequestState) (w : W) :
  outcome (exec E (graph state) w) = Ok s →
  ∃ deleted,
    trace (exec E (graph state) w)
    = [GetDisasterDocument (disaster_id state);
       ListResourcesForDisaster (disaster_id state);
       GeminiInvoke (request_of s (normalize_urgency (urgency_type s)));
       Uuid4;
       ListTasksByUserAndDisaster (user_id state) (disaster_id state)]
      ++ (DeleteDocument <$> deleted)
      ++ [SaveTaskDocument (generated_task s);
          DeleteUserRequestDocument (user_id state);
          SaveUserRequestDocument (user_id state) (user_request_data s)].
Proof.
  destruct (exec_create_emergency_request_graph json_loads format_other E state w)
    as [[cause ->]|(d & ranked & w2 & _ & _ & Hrun)]; [done|].
  cbn zeta in Hrun.
  destruct (outcome (exec E (synthesize _) w2)) as [s3|e] eqn:Hgen; [|by rewrite Hrun].
  destruct Hrun as (deleted & data & w' & -> & _). cbn [outcome trace].
  intros [= <-]. exists deleted.
  rewrite (trace_generate_emergency_task_ok _ _ _ _ _ _ Hgen).
  destruct (generated_task_built json_loads format_other E _ s3 _ Hgen)
    as (? & ? & ? & ? & ? & ? & ? & _ & _ & _ & [[_ ->]|(_ & ? & ->)]);
    reflexivity.
Qed.

(** X14.  In the state a run of the pipeline returns, the request fields are
    the caller's, at most five resources are kept, and the request record
    describes the generated task: same task id, roles, reasoning, category,
    user, disaster and help text.  The record keeps the caller's urgency
    label and coordinate strings, while the task carries the normalized
    label.  The roles recorded are [vol], [fr] or [vol, fr]. *)
Theorem pipeline_record_matches_task (state s : EmergencyRequestState) (w : W) :
  outcome (exec E (graph state) w) = Ok s →
  (disaster_id s = disaster_id state ∧ user_id s = user_id state
   ∧ help s = help state ∧ urgency_type s = urgency_type state
   ∧ latitude s = latitude state ∧ longitude s = longitude state)
  ∧ (length (nearby_resources s) ≤ 5)%nat
  ∧ is_Some (generated_task s !! "task_id")
  ∧ user_request_data s !! "task_id" = generated_task s !! "task_id"
  ∧ user_request_data s !! "assigned_roles" = generated_task s !! "roles"
  ∧ user_request_data s !! "ai_reasoning" = generated_task s !! "ai_reasoning"
  ∧ user_request_data s !! "emergency_type" = generated_task s !! "emergency_type"
  ∧ user_request_data s !! "userId" = generated_task s !! "user_id"
  ∧ user_request_data s !! "disaster_id" = generated_task s !! "disaster_id"
  ∧ user_request_data s !! "help" = generated_task s !! "help_needed"
  ∧ user_request_data s !! "urgency_type" = Some (PStr (urgency_type state))
  ∧ generated_task s !! "urgency_level"
    = Some (PStr (normalize_urgency (urgency_type state)))
  ∧ user_request_data s !! "latitude" = Some (PStr (latitude state))
  ∧ user_request_data s !! "longitude" = Some (PStr (longitude state))
  ∧ user_request_data s !! "status" = Some (PStr "submitted")
  ∧ ∃ roles,
      allowed_roles roles
      ∧ user_request_data s !! "assigned_roles" = Some (PList (PStr <$> roles)).
Proof.
  destruct (exec_create_emergency_request_graph json_loads format_other E state w)
    as [[cause ->]|(d & ranked & w2 & _ & Hlen & Hrun)]; [done|].
  cbn zeta in Hrun.
  destruct (outcome (exec E (synthesize _) w2)) as [s3|e] eqn:Hgen; [|by rewrite Hrun].
  destruct Hrun as (deleted & data & w' & -> & Dtask & Droles & Dreasoning & Dcategory
                    & Duser & Ddisaster & Dhelp & Durgency & Dlat & Dlon & Dstatus & _).
  cbn [outcome]. intros [= <-].
  cbn [generated_task user_request_data with_user_request_data disaster_id user_id help
       urgency_type latitude longitude nearby_resources].
  destruct (generated_task_built json_loads format_other E _ s3 _ Hgen)
    as (task_id & ? & roles & ? & ? & ? & ? & _ & _ & Hallowed & Hbuilt).
  cbn zeta in Hbuilt.
  assert (generated_task s3 !! "task_id" = Some (PStr task_id)
          ∧ generated_task s3 !! "roles" = Some (PList (PStr <$> roles))
          ∧ generated_task s3 !! "urgency_level"
            = Some (PStr (normalize_urgency (urgency_type state)))
          ∧ disaster_id s3 = disaster_id state ∧ user_id s3 = user_id state
          ∧ help s3 = help state ∧ urgency_type s3 = urgency_type state
          ∧ latitude s3 = latitude state ∧ longitude s3 = longitude state
          ∧ nearby_resources s3 = ranked)
    as (Hid & Hroles & Hurgency & -> & -> & -> & -> & -> & -> & ->).
  { destruct Hbuilt as [[_ ->]|(_ & utilization & ->)];
      cbn [generated_task with_generated_task user_id disaster_id help urgency_type
           latitude longitude nearby_resources];
      rewrite ?lookup_insert_ne by done;
      rewrite task_common_task_id, task_common_roles, task_common_urgency_level; done. }
  rewrite Hid in *. repeat (split; [done|]).
  exists roles. split; [done|]. by rewrite Droles.
Qed.

(** X15.  A run of the pipeline that raises has asked the store to change
    nothing: no task or request record was written or deleted.  It raises
    only in two places: the disaster lookup failed, which gives ValueError
    after that single call; or the Task Synthesizer raised after the lookup,
    the resource listing and the model request, which happens only when the
    category is no str or a coordinate string does not convert. *)
Theorem pipeline_failure_writes_nothing (state : EmergencyRequestState) (w : W) (e : exn) :
  outcome (exec E (graph state) w) = Err e →
  Forall (λ o, is_write o = false) (trace (exec E (graph state) w))
  ∧ ((∃ cause,
        e = Exn "ValueError" ("Disaster data not found: " +:+ cause)
        ∧ trace (exec E (graph state) w) = [GetDisasterDocument (disaster_id state)])
     ∨ (∃ d request ids,
          (E (GetDisasterDocument (disaster_id state)) w).1 = Ok (Some d)
          ∧ fallback_ready
              (with_emergency_type state
                 (dict_get_default d "emergency_type" (PStr "general emergency")))
            = false
          ∧ trace (exec E (graph state) w)
            = GetDisasterDocument (disaster_id state)
                :: ListResourcesForDisaster (disaster_id state)
                :: GeminiInvoke request :: ids
          ∧ (ids = [] ∨ ids = [Uuid4] ∨ ids = [Uuid4; Uuid4]))).
Proof.
  destruct (exec_create_emergency_request_graph json_loads format_other E state w)
    as [[cause ->]|(d & ranked & w2 & Hd & _ & Hrun)]; cbn [outcome trace].
  { intros [= <-]. split; [by repeat constructor|]. left. eauto. }
  cbn zeta in Hrun.
  destruct (outcome (exec E (synthesize _) w2)) as [s3|e'] eqn:Hgen.
  { destruct Hrun as (? & ? & ? & -> & _). done. }
  rewrite Hrun. cbn [outcome trace]. intros [= <-].
  set (s2 := with_nearby_resources _ ranked) in *.
  assert (fallback_ready s2 = false) as Hready.
  { destruct (fallback_ready s2) eqn:Hready; [|done].
    destruct (generate_emergency_task_returns json_loads format_other E s2 w2 Hready) as [s Hs]. congruence. }
  assert (∃ ids, trace (exec E (synthesize s2) w2)
                 = GeminiInvoke (request_of s2 (normalize_urgency (urgency_type s2))) :: ids
                 ∧ (ids = [] ∨ ids = [Uuid4] ∨ ids = [Uuid4; Uuid4]))
    as (ids & -> & Hids).
  { rewrite exec_generate_emergency_task. cbn zeta.
    destruct (trace_generate_primary json_loads format_other E s2
                (normalize_urgency (urgency_type s2)) w2) as (ids & Htrace & Hids).
    destruct (outcome (exec E (generate_primary json_loads format_other s2 _) w2));
      cbn [trace].
    - exists ids. split; [done|]. destruct Hids as [->| ->]; auto.
    - rewrite Htrace.
      destruct (trace_generate_fallback format_other E s2
                  (normalize_urgency (urgency_type s2))
                  (final (exec E (generate_primary json_loads format_other s2
                     (normalize_urgency (urgency_type s2))) w2))) as [-> | ->];
        destruct Hids as [->| ->]; eexists; (split; [reflexivity|]); auto. }
  split.
  - destruct Hids as [->|[->| ->]]; by repeat constructor.
  - right. eexists d, _, ids. by repeat split.
Qed.

(** X16.  [process_emergency_request] returns whenever the store finds the
    disaster, its category is a str or absent, and both coordinate strings
    convert to floats: no answer of the resource listing, the model or the
    later store calls makes it raise. *)
Theorem process_emergency_request_returns
        (disaster user help_text urgency lat lon : string) (w w1 : W) (d : doc) :
  E (GetDisasterDocument disaster) w = (Ok (Some d), w1) →
  (d !! "emergency_type" = None ∨ ∃ category, d !! "emergency_type" = Some (PStr category)) →
  (∃ x, float_of_str lat = Ok x) →
  (∃ y, float_of_str lon = Ok y) →
  ∃ s, outcome (exec E (process disaster user help_text urgency lat lon) w) = Ok s.
Proof.
  intros HE Hcategory [flat Hlat] [flon Hlon]. unfold process_emergency_request.
  destruct (exec_create_emergency_request_graph json_loads format_other E
              (State disaster user help_text urgency lat lon (PStr "") [] ∅ ∅) w)
    as [[cause Hrun]|(d' & ranked & w2 & Hd & _ & Hrun)].
  { exfalso. revert Hrun. unfold create_emergency_request_graph.
    rewrite exec_bind, (exec_fetch_disaster_type_found E _ w w1 d) by done.
    cbn [outcome trace final].
    rewrite exec_bind, exec_fetch_nearby_resources. cbn [outcome trace final]. done. }
  cbn [disaster_id] in Hd. rewrite HE in Hd. injection Hd as <-.
  cbn zeta in Hrun.
  match type of Hrun with
  | match outcome (exec E (synthesize ?s2) w2) with _ => _ end =>
      destruct (generate_emergency_task_returns json_loads format_other E s2 w2) as [s3 Hs3]
  end.
  { unfold fallback_ready, dict_get_default. cbn [emergency_type latitude longitude
      with_nearby_resources with_emergency_type].
    rewrite Hlat, Hlon. by destruct Hcategory as [->|[category ->]]. }
  rewrite Hs3 in Hrun. destruct Hrun as (? & ? & ? & -> & _). eauto.
Qed.

End PipelineProperties.

Section PipelineFurtherExamples.
#[local] Existing Instance ascii_builtins.

(** X13, witness: a store that holds three tasks of the user and fails
    one delete and every write. *)
Lemma pipeline_call_order_witness :
  ∃ s deleted,
    outcome (exec (scripted flaky_store)
               (sample_pipeline (sample_request "Need food and water" "moderate" "12.0" "77.0"))
               tt) = Ok s
    ∧ trace (exec (scripted flaky_store)
               (sample_pipeline (sample_request "Need food and water" "moderate" "12.0" "77.0"))
               tt)
      = [GetDisasterDocument "d1"; ListResourcesForDisaster "d1";
         GeminiInvoke (model_request sample_format s (normalize_urgency (urgency_type s)));
         Uuid4; ListTasksByUserAndDisaster "u1" "d1"]
        ++ (DeleteDocument <$> deleted)
        ++ [SaveTaskDocument (generated_task s); DeleteUserRequestDocument "u1";
            SaveUserRequestDocument "u1" (user_request_data s)].
Proof.
  destruct (outcome (exec (scripted flaky_store)
              (sample_pipeline (sample_request "Need food and water" "moderate" "12.0" "77.0"))
              tt)) as [s|e] eqn:Hrun; [|vm_compute in Hrun; discriminate].
  destruct (pipeline_call_order (lib := ascii_builtins)
           sample_json_loads sample_format (scripted flaky_store)
              (sample_request "Need food and water" "moderate" "12.0" "77.0") s tt Hrun)
    as [deleted Htrace].
  by exists s, deleted.
Defined.

(** X14, witness: the same run. *)
Lemma pipeline_record_matches_task_witness :
  ∃ s,
    outcome (exec (scripted flaky_store)
               (sample_pipeline (sample_request "Need food and water" "moderate" "12.0" "77.0"))
               tt) = Ok s
    ∧ (length (nearby_resources s) ≤ 5)%nat
    ∧ is_Some (generated_task s !! "task_id")
    ∧ user_request_data s !! "task_id" = generated_task s !! "task_id"
    ∧ user_request_data s !! "assigned_roles" = generated_task s !! "roles"
    ∧ user_request_data s !! "urgency_type" = Some (PStr "moderate")
    ∧ generated_task s !! "urgency_level" = Some (PStr "medium").
Proof.
  destruct (outcome (exec (scripted flaky_store)
              (sample_pipeline (sample_request "Need food and water" "moderate" "12.0" "77.0"))
              tt)) as [s|e] eqn:Hrun; [|vm_compute in Hrun; discriminate].
  destruct (pipeline_record_matches_task (lib := ascii_builtins) sample_json_loads sample_format
              (scripted flaky_store)
              (sample_request "Need food and water" "moderate" "12.0" "77.0") s tt Hrun)
    as (_ & Hlen & Hid & Htask & Hroles & _ & _ & _ & _ & _ & Hurgency & Hlevel & _).
  exists s. by repeat split.
Defined.

(** X15, witness: a latitude that is no number. *)
Lemma pipeline_failure_writes_nothing_witness :
  ∃ e,
    outcome (exec (scripted (listing sample_listing))
               (sample_pipeline (sample_request "Need water" "low" "north" "77.0")) tt)
      = Err e
    ∧ Forall (λ o, is_write o = false)
        (trace (exec (scripted (listing sample_listing))
                  (sample_pipeline (sample_request "Need water" "low" "north" "77.0")) tt)).
Proof.
  destruct (outcome (exec (scripted (listing sample_listing))
              (sample_pipeline (sample_request "Need water" "low" "north" "77.0")) tt))
    as [s|e] eqn:Hrun; [vm_compute in Hrun; discriminate|].
  exists e. split; [done|].
  apply (pipeline_failure_writes_nothing (lib := ascii_builtins) sample_json_loads sample_format
           (scripted (listing sample_listing))
           (sample_request "Need water" "low" "north" "77.0") tt e Hrun).
Defined.

(** X16, witness: the store finds a flood; the model is
    unavailable and the writes fail. *)
Lemma process_emergency_request_returns_witness :
  ∃ s,
    outcome (exec (scripted flaky_store)
               (process_emergency_request sample_json_loads sample_format
                  "d1" "u1" "Need water" "low" "12.0" "77.0") tt)
      = Ok s.
Proof.
  apply (process_emergency_request_returns (lib := ascii_builtins) sample_json_loads sample_format
           (scripted flaky_store) "d1" "u1" "Need water" "low" "12.0" "77.0" tt tt
           {["emergency_type" := PStr "flood"]}).
  - reflexivity.
  - right. by exists "flood".
  - exists (Float64.of_Z 12). vm_compute. reflexivity.
  - exists (Float64.of_Z 77). vm_compute. reflexivity.
Defined.

End PipelineFurtherExamples.

(** ** Administrative cleanup *)

Section CleanupProperties.
Context {lib : Builtins} {W : Type} (E : env W).


(** X17.  [delete_task_by_id] asks the store for one delete and returns,
    whether the store deletes the task or raises. *)
Theorem delete_task_by_id_never_raises (task_id : string) (w : W) :
  ∃ w',
    exec E (delete_task_by_id task_id) w
      = Run [DeleteDocument (PStr task_id)] w' (Ok tt).
Proof.
  unfold delete_task_by_id. simpl.
  destruct (E (DeleteDocument (PStr task_id)) w) as [[[]|e] w1]; simpl; eauto.
Qed.

End CleanupProperties.
